(** * stock-view: inventory ledger and valuation

    A shallow embedding of the inventory logic of the stock-view back
    office (Next.js pages over a Supabase database) and the properties of
    its cost model, stock checks and audit workflow.

    Conventions of the embedding.
    - A TypeScript [number] is a binary64 floating-point number: the
      primitive [float], whose operations are the IEEE 754 ones, rounded
      to nearest, with [NaN], the two infinities and the two zeros.
    - A page component is a module.  Its React state is passed in
      explicitly: what a page read when it was opened, and what an effect
      last stored, are arguments of the handlers, not recomputed from the
      database or from the form.  The database is a record of tables, and
      every [await supabase...] takes the answer of the backend (an
      optional error message, or the generated id) as an argument.
    - [new Date().toISOString()], [confirm(...)] and the signed-in user
      are arguments too.
    - A string is the list of its code units; ids, dates and routes are
      strings. *)

From Stdlib Require Import ZArith Floats Arith NArith List String Ascii Bool.
From Stdlib Require Import DecimalString Permutation Lia.
Import ListNotations.

Set Implicit Arguments.

(** ** Numbers *)

Module Number.

Definition number : Type := float.

(** The integer [z] as a number: [z] itself when it is below 2^53 in
    absolute value, the nearest number otherwise. *)
Definition of_Z (z : Z) : number :=
  SF2Prim (binary_normalize prec emax z 0 false).

(** The decimal literal that denotes the fraction [n/d], as in [0.01] or
    [0.15]: the number nearest to it. *)
Definition of_frac (n : Z) (d : positive) : number :=
  PrimFloat.div (of_Z n) (of_Z (Zpos d)).

Definition zero : number := PrimFloat.zero.
Definition NaN : number := PrimFloat.nan.
Definition PosInf : number := PrimFloat.infinity.
Definition NegInf : number := PrimFloat.neg_infinity.

(** Unary minus. *)
Definition neg (x : number) : number := PrimFloat.opp x.

(** [x + y] *)
Definition add (x y : number) : number := PrimFloat.add x y.



(** [x / y] *)
Definition div (x y : number) : number := PrimFloat.div x y.

(** [x === y] on numbers: [NaN] is different from everything, itself
    included, and [-0] equals [0]. *)
Definition strict_eq (x y : number) : bool := PrimFloat.eqb x y.

(** [x < y]; every comparison with [NaN] is false. *)
Definition lt (x y : number) : bool := PrimFloat.ltb x y.

(** [x > y] *)
Definition gt (x y : number) : bool := PrimFloat.ltb y x.

(** [x >= y] *)
Definition ge (x y : number) : bool := PrimFloat.leb y x.

(** [x <= y] *)
Definition le (x y : number) : bool := PrimFloat.leb x y.

Definition is_nan (x : number) : bool := PrimFloat.is_nan x.

(** Truthiness of a number in a condition: [0], [-0] and [NaN] are falsy. *)
Definition truthy (x : number) : bool := negb (strict_eq x zero || is_nan x).

(** [Number.isFinite(x)] *)
Definition is_finite (x : number) : bool := PrimFloat.is_finite x.


End Number.

Import Number.

Declare Scope number_scope.
Delimit Scope number_scope with num.
Bind Scope number_scope with number.
Infix "+" := add : number_scope.
Infix "-" := sub : number_scope.
Infix "*" := mul : number_scope.
Infix "/" := div : number_scope.
Infix "===" := strict_eq (at level 70, no associativity) : number_scope.
Infix ">?" := gt (at level 70, no associativity) : number_scope.
Infix ">=?" := ge (at level 70, no associativity) : number_scope.

(** ** [@/lib/utils/calculations] (second component of
    src/app/dashboard/categories/edit/[id]/page.tsx) *)

Module Calculations.

Local Open Scope number_scope.

(** [calculateVAT(amount, vatRate = 0.15)] *)
Definition default_vatRate : number := of_frac 15 100.

Definition calculateVAT (amount vatRate : number) : number :=
  amount * vatRate.

Definition calculateTotalWithVAT (amount vatRate : number) : number :=
  amount + calculateVAT amount vatRate.

Definition calculateAverageCost
  (currentQuantity currentAverageCost newQuantity newCost : number) : number :=
  if (currentQuantity === zero) && (newQuantity === zero) then zero
  else
    let totalValue :=
      currentQuantity * currentAverageCost + newQuantity * newCost in
    let totalQuantity := currentQuantity + newQuantity in
    totalValue / totalQuantity.

End Calculations.

Import Calculations.

(** The cost blend as the specification words it: the weighted mean of the
    two costs, and 0 when both quantities are 0. *)
Inductive blendAverageCost_spec
  (currentQty currentAvgCost incomingQty incomingCost : number) : number -> Prop :=
| blend_cold :
    (currentQty === zero)%num = true -> (incomingQty === zero)%num = true ->
    blendAverageCost_spec currentQty currentAvgCost incomingQty incomingCost zero
| blend_mean :
    ~ ((currentQty === zero)%num = true /\ (incomingQty === zero)%num = true) ->
    blendAverageCost_spec currentQty currentAvgCost incomingQty incomingCost
      ((currentQty * currentAvgCost + incomingQty * incomingCost)
         / (currentQty + incomingQty))%num.

(** ** The tables of the database (types of [@/types], as the pages use them) *)

Module InventoryItem.
Record t : Type := {
  id : string;
  product_id : string;
  branch_id : string;
  quantity : number;
  average_cost : number;
  updated_at : string
}.
End InventoryItem.

Module InventoryAdjustment.
Record t : Type := {
  inventory_item_id : string;
  previous_quantity : number;
  new_quantity : number;
  reason : string
}.
End InventoryAdjustment.

Module Waste.
Record t : Type := {
  id : string;
  reference_number : string;
  branch_id : string;
  product_id : string;
  quantity : number;
  cost : number;
  reason : string;
  notes : option string;
  created_by : option string
}.
End Waste.

Module Transformation.
Record t : Type := {
  id : string;
  reference_number : string;
  branch_id : string;
  target_product_id : string;
  target_quantity : number;
  total_cost : number;
  notes : option string;
  created_by : option string
}.
End Transformation.

Module TransformationItem.
Record t : Type := {
  transformation_id : string;
  product_id : string;
  quantity : number;
  cost_per_unit : number;
  total_cost : number
}.
End TransformationItem.

Module PurchaseInvoice.
Record t : Type := {
  id : string;
  invoice_number : string;
  supplier : string;
  branch_id : string;
  total_amount : number;
  vat_amount : number;
  created_by : option string
}.
End PurchaseInvoice.

Module PurchaseItem.
Record t : Type := {
  purchase_invoice_id : string;
  product_id : string;
  quantity : number;
  unit_price : number;
  vat_percentage : number;
  total_price : number
}.
End PurchaseItem.

Inductive audit_status : Type := draft | in_progress | completed | cancelled.

Module InventoryAudit.
Record t : Type := {
  id : string;
  branch_id : string;
  status : audit_status;
  completed_at : option string;
  completed_by : option string;
  updated_at : option string;
  updated_by : option string
}.
End InventoryAudit.

Module InventoryAuditItem.
Record t : Type := {
  id : string;
  audit_id : string;
  product_id : string;
  expected_quantity : number;
  actual_quantity : option number;
  difference : option number;
  notes : option string
}.
End InventoryAuditItem.

Record database : Type := {
  inventory_items : list InventoryItem.t;
  inventory_adjustments : list InventoryAdjustment.t;
  waste : list Waste.t;
  transformations : list Transformation.t;
  transformation_items : list TransformationItem.t;
  purchase_invoices : list PurchaseInvoice.t;
  purchase_items : list PurchaseItem.t;
  inventory_audits : list InventoryAudit.t;
  inventory_audit_items : list InventoryAuditItem.t
}.

Definition empty_database : database :=
  {| inventory_items := []; inventory_adjustments := []; waste := [];
     transformations := []; transformation_items := [];
     purchase_invoices := []; purchase_items := [];
     inventory_audits := []; inventory_audit_items := [] |}.

(** Writing one table and keeping the others. *)
Definition set_inventory_items (rows : list InventoryItem.t) (db : database) :=
  {| inventory_items := rows;
     inventory_adjustments := inventory_adjustments db;
     waste := waste db;
     transformations := transformations db;
     transformation_items := transformation_items db;
     purchase_invoices := purchase_invoices db;
     purchase_items := purchase_items db;
     inventory_audits := inventory_audits db;
     inventory_audit_items := inventory_audit_items db |}.

Definition set_inventory_adjustments (rows : list InventoryAdjustment.t) (db : database) :=
  {| inventory_items := inventory_items db;
     inventory_adjustments := rows;
     waste := waste db;
     transformations := transformations db;
     transformation_items := transformation_items db;
     purchase_invoices := purchase_invoices db;
     purchase_items := purchase_items db;
     inventory_audits := inventory_audits db;
     inventory_audit_items := inventory_audit_items db |}.

Definition set_waste (rows : list Waste.t) (db : database) :=
  {| inventory_items := inventory_items db;
     inventory_adjustments := inventory_adjustments db;
     waste := rows;
     transformations := transformations db;
     transformation_items := transformation_items db;
     purchase_invoices := purchase_invoices db;
     purchase_items := purchase_items db;
     inventory_audits := inventory_audits db;
     inventory_audit_items := inventory_audit_items db |}.

Definition set_transformations (rows : list Transformation.t) (db : database) :=
  {| inventory_items := inventory_items db;
     inventory_adjustments := inventory_adjustments db;
     waste := waste db;
     transformations := rows;
     transformation_items := transformation_items db;
     purchase_invoices := purchase_invoices db;
     purchase_items := purchase_items db;
     inventory_audits := inventory_audits db;
     inventory_audit_items := inventory_audit_items db |}.

Definition set_transformation_items (rows : list TransformationItem.t) (db : database) :=
  {| inventory_items := inventory_items db;
     inventory_adjustments := inventory_adjustments db;
     waste := waste db;
     transformations := transformations db;
     transformation_items := rows;
     purchase_invoices := purchase_invoices db;
     purchase_items := purchase_items db;
     inventory_audits := inventory_audits db;
     inventory_audit_items := inventory_audit_items db |}.

Definition set_purchase_invoices (rows : list PurchaseInvoice.t) (db : database) :=
  {| inventory_items := inventory_items db;
     inventory_adjustments := inventory_adjustments db;
     waste := waste db;
     transformations := transformations db;
     transformation_items := transformation_items db;
     purchase_invoices := rows;
     purchase_items := purchase_items db;
     inventory_audits := inventory_audits db;
     inventory_audit_items := inventory_audit_items db |}.

Definition set_purchase_items (rows : list PurchaseItem.t) (db : database) :=
  {| inventory_items := inventory_items db;
     inventory_adjustments := inventory_adjustments db;
     waste := waste db;
     transformations := transformations db;
     transformation_items := transformation_items db;
     purchase_invoices := purchase_invoices db;
     purchase_items := rows;
     inventory_audits := inventory_audits db;
     inventory_audit_items := inventory_audit_items db |}.

Definition set_inventory_audits (rows : list InventoryAudit.t) (db : database) :=
  {| inventory_items := inventory_items db;
     inventory_adjustments := inventory_adjustments db;
     waste := waste db;
     transformations := transformations db;
     transformation_items := transformation_items db;
     purchase_invoices := purchase_invoices db;
     purchase_items := purchase_items db;
     inventory_audits := rows;
     inventory_audit_items := inventory_audit_items db |}.

Definition set_inventory_audit_items (rows : list InventoryAuditItem.t) (db : database) :=
  {| inventory_items := inventory_items db;
     inventory_adjustments := inventory_adjustments db;
     waste := waste db;
     transformations := transformations db;
     transformation_items := transformation_items db;
     purchase_invoices := purchase_invoices db;
     purchase_items := purchase_items db;
     inventory_audits := inventory_audits db;
     inventory_audit_items := rows |}.

(** ** What a handler leaves behind *)

(** The message a handler puts in the page's [error] state.  The two
    checks made by the pages themselves carry the names the specification
    gives them; the text shown also interpolates the product's name or
    unit, which plays no part here. *)
Inductive page_error : Type :=
| InsufficientStock (available : number)
| IncompleteAudit
| BackendError (message : string).

Inductive outcome : Type :=
| Pushed (route : string)     (* reached [router.push(route)] *)
| Stayed                      (* finished without navigating *)
| Rejected (e : page_error)   (* [setError(...)] *)
| Ignored.                    (* returned before doing anything *)

(** The answer to an insert that reads the new row back
    ([.insert(...).select().single()]), and to one that only reads the
    error; in both cases a row that errors is not written. *)
Definition inserted : Type := (string + string)%type. (* error message + new id *)

(** [handleSubmit(onSubmit)]: the resolver runs first, and the form is
    only handed to [onSubmit] when the schema accepts it. *)
Definition handleSubmit {Form St : Type} (schema : Form -> bool)
  (onSubmit : Form -> St -> St * outcome) (data : Form) (st : St) : St * outcome :=
  if schema data then onSubmit data st else (st, Ignored).

Definition nonempty (s : string) : bool :=
  match s with EmptyString => false | _ => true end.

(** [data.notes || null] *)
Definition or_null (notes : option string) : option string :=
  match notes with
  | Some text => if nonempty text then Some text else None
  | None => None
  end.

(** [rows.find(item => item.product_id === productId && item.branch_id === branchId)] *)
Definition find_item (inventory : list InventoryItem.t) (productId branchId : string)
  : option InventoryItem.t :=
  find (fun item => String.eqb (InventoryItem.product_id item) productId
                    && String.eqb (InventoryItem.branch_id item) branchId)
       inventory.

(** [.eq('id', id).single()]: exactly one row, or an error. *)
Definition single {A : Type} (rows : list A) : option A :=
  match rows with
  | [row] => Some row
  | _ => None
  end.

(** ** src/app/dashboard/inventory/adjust/[id]/page.tsx *)

Module AdjustInventoryPage.

Record AdjustInventoryFormValues : Type := {
  quantity : number;
  reason : string
}.

Definition adjustInventorySchema (data : AdjustInventoryFormValues) : bool :=
  (quantity data >=? zero)%num && (3 <=? String.length (reason data))%nat.

Record state : Type := {
  inventoryItemId : string;          (* [params.id] *)
  inventoryItem : option InventoryItem.t
}.

(** The effect that loads the row named by the route.  It runs when the
    route has an id, and makes two reads: the row
    ([.eq('id', inventoryItemId).single()], an error unless exactly one
    row has the id), then the product of the row.  [itemError] and
    [productError] are the errors the backend gives to the two reads for
    reasons of its own.  [setInventoryItem] is only reached when both
    reads succeed; otherwise the entry stays null. *)
Definition fetchInventoryItem (id : string) (itemError productError : option string)
  (db : database) : state :=
  {| inventoryItemId := id;
     inventoryItem :=
       if negb (nonempty id) then None
       else
         match itemError with
         | Some _ => None
         | None =>
             match single (filter (fun row => String.eqb (InventoryItem.id row) id)
                                  (inventory_items db)) with
             | None => None
             | Some itemData =>
                 match productError with
                 | Some _ => None
                 | None => Some itemData
                 end
             end
         end |}.

(** [.update({quantity, updated_at}).eq('id', inventoryItemId)] *)
Definition update_quantity (id : string) (q : number) (now : string)
  (row : InventoryItem.t) : InventoryItem.t :=
  if String.eqb (InventoryItem.id row) id then
    {| InventoryItem.id := InventoryItem.id row;
       InventoryItem.product_id := InventoryItem.product_id row;
       InventoryItem.branch_id := InventoryItem.branch_id row;
       InventoryItem.quantity := q;
       InventoryItem.average_cost := InventoryItem.average_cost row;
       InventoryItem.updated_at := now |}
  else row.

(** [previous_quantity] is the quantity of the entry the page holds,
    as it was read when the page was opened. *)
Definition onSubmit (st : state) (now : string)
  (adjustmentError updateError : option string)
  (data : AdjustInventoryFormValues) (db : database) : database * outcome :=
  match inventoryItem st with
  | None => (db, Ignored)
  | Some item =>
      match adjustmentError with
      | Some message => (db, Rejected (BackendError message))
      | None =>
          let db1 :=
            set_inventory_adjustments
              (inventory_adjustments db ++
                 [ {| InventoryAdjustment.inventory_item_id := inventoryItemId st;
                      InventoryAdjustment.previous_quantity := InventoryItem.quantity item;
                      InventoryAdjustment.new_quantity := quantity data;
                      InventoryAdjustment.reason := reason data |} ])
              db in
          match updateError with
          | Some message => (db1, Rejected (BackendError message))
          | None =>
              (set_inventory_items
                 (map (update_quantity (inventoryItemId st) (quantity data) now)
                      (inventory_items db1))
                 db1,
               Pushed "/dashboard/inventory")
          end
      end
  end.

Definition submit (st : state) (now : string)
  (adjustmentError updateError : option string) :=
  handleSubmit adjustInventorySchema (onSubmit st now adjustmentError updateError).

End AdjustInventoryPage.

(** ** src/app/dashboard/waste/add/page.tsx *)

Module AddWastePage.

Record WasteFormValues : Type := {
  reference_number : string;
  branch_id : string;
  product_id : string;
  quantity : number;
  reason : string;
  notes : option string
}.

Definition wasteSchema (data : WasteFormValues) : bool :=
  nonempty (reference_number data) && nonempty (branch_id data)
  && nonempty (product_id data) && (quantity data >=? of_frac 1 100)%num
  && nonempty (reason data).

(** The effect that runs when the page is opened: the reads of the
    products, of the branches and of the inventory, each with the error
    the backend gives it.  [setInventory] is reached when the three reads
    succeed; otherwise [inventory] keeps its initial value, the empty
    list.  The page does not read the inventory again before a submit. *)
Definition fetchData (productsError branchesError inventoryError : option string)
  (db : database) : list InventoryItem.t :=
  match productsError, branchesError, inventoryError with
  | None, None, None => inventory_items db
  | _, _, _ => []
  end.

Section Watched.
Variable inventory : list InventoryItem.t.
Variables watchProductId watchBranchId : string.

(** The effect on [watchProductId], [watchBranchId] and [inventory]: the
    value it passes to [setSelectedProductCost] when it runs. *)
Definition selectedProductCostEffect : number :=
  if nonempty watchProductId && nonempty watchBranchId then
    match find_item inventory watchProductId watchBranchId with
    | Some inventoryItem => InventoryItem.average_cost inventoryItem
    | None => zero
    end
  else zero.

(** The effect on [watchQuantity] and [selectedProductCost]: the value it
    passes to [setTotalCost] when it runs. *)
Definition totalCostEffect (watchQuantity selectedProductCost : number) : number :=
  if truthy watchQuantity && truthy selectedProductCost
  then (watchQuantity * selectedProductCost)%num
  else zero.

Definition getAvailableInventory : number :=
  if negb (nonempty watchProductId) || negb (nonempty watchBranchId) then zero
  else
    match find_item inventory watchProductId watchBranchId with
    | Some inventoryItem => InventoryItem.quantity inventoryItem
    | None => zero
    end.
End Watched.

(** At submission the watched fields are the fields of [data].
    [inventory] and [totalCost] are the state of the page: the inventory
    as [fetchData] left it, and the cost the effect stored when it last
    ran. *)
Definition onSubmit (inventory : list InventoryItem.t) (totalCost : number)
  (user_id : option string)
  (wasteAnswer : inserted) (data : WasteFormValues) (db : database)
  : database * outcome :=
  let availableQuantity :=
    getAvailableInventory inventory (product_id data) (branch_id data) in
  if (quantity data >? availableQuantity)%num then
    (db, Rejected (InsufficientStock availableQuantity))
  else
    match wasteAnswer with
    | inl message => (db, Rejected (BackendError message))
    | inr new_id =>
        (set_waste
           (waste db ++
              [ {| Waste.id := new_id;
                   Waste.reference_number := reference_number data;
                   Waste.branch_id := branch_id data;
                   Waste.product_id := product_id data;
                   Waste.quantity := quantity data;
                   Waste.cost := totalCost;
                   Waste.reason := reason data;
                   Waste.notes := or_null (notes data);
                   Waste.created_by := user_id |} ])
           db,
         Pushed "/dashboard/waste")
    end.

Definition submit (inventory : list InventoryItem.t) (totalCost : number)
  (user_id : option string) (wasteAnswer : inserted) :=
  handleSubmit wasteSchema (onSubmit inventory totalCost user_id wasteAnswer).

End AddWastePage.

(** ** AddTransformationPage (third component of
    src/app/dashboard/inventory/adjust/[id]/page.tsx) *)

Module AddTransformationPage.

Record TransformationItemFormValues : Type := {
  product_id : string;
  quantity : number;
  cost_per_unit : number;
  total_cost : number
}.

Record TransformationFormValues : Type := {
  reference_number : string;
  branch_id : string;
  target_product_id : string;
  target_quantity : number;
  notes : option string;
  source_items : list TransformationItemFormValues
}.

Definition transformationItemSchema (item : TransformationItemFormValues) : bool :=
  nonempty (product_id item) && (quantity item >=? of_frac 1 100)%num
  && (cost_per_unit item >=? zero)%num && (total_cost item >=? zero)%num.

Definition transformationSchema (data : TransformationFormValues) : bool :=
  nonempty (reference_number data) && nonempty (branch_id data)
  && nonempty (target_product_id data)
  && (target_quantity data >=? of_frac 1 100)%num
  && forallb transformationItemSchema (source_items data)
  && (1 <=? List.length (source_items data))%nat.

(** The effect that runs when the page is opened: the reads of the
    products, of the branches and of the inventory, each with the error
    the backend gives it.  [setInventory] is reached when the three reads
    succeed; otherwise [inventory] keeps its initial value, the empty
    list.  The page does not read the inventory again before a submit. *)
Definition fetchData (productsError branchesError inventoryError : option string)
  (db : database) : list InventoryItem.t :=
  match productsError, branchesError, inventoryError with
  | None, None, None => inventory_items db
  | _, _, _ => []
  end.

(** The effect on [watchSourceItems]: the value it passes to
    [setTotalCost] when it runs. *)
Definition totalCostEffect (watchSourceItems : list TransformationItemFormValues)
  : number :=
  fold_left
    (fun cost item =>
       if truthy (total_cost item) then (cost + total_cost item)%num else cost)
    watchSourceItems zero.

Section Watched.
Variable inventory : list InventoryItem.t.
Variable watchBranchId : string.

Definition getAvailableInventory (productId : string) : number :=
  if negb (nonempty watchBranchId) then zero
  else
    match find_item inventory productId watchBranchId with
    | Some inventoryItem => InventoryItem.quantity inventoryItem
    | None => zero
    end.

Definition getProductCostPerUnit (productId : string) : number :=
  if negb (nonempty watchBranchId) then zero
  else
    match find_item inventory productId watchBranchId with
    | Some inventoryItem => InventoryItem.average_cost inventoryItem
    | None => zero
    end.

(** The loop at the head of [onSubmit]: the available quantity of the
    first item that asks for more than is there, if any. *)
Fixpoint firstShortage (items : list TransformationItemFormValues) : option number :=
  match items with
  | [] => None
  | item :: rest =>
      let availableQuantity := getAvailableInventory (product_id item) in
      if (quantity item >? availableQuantity)%num then Some availableQuantity
      else firstShortage rest
  end.
End Watched.

Definition transformationItems (transformation_id : string)
  (items : list TransformationItemFormValues) : list TransformationItem.t :=
  map (fun item =>
         {| TransformationItem.transformation_id := transformation_id;
            TransformationItem.product_id := product_id item;
            TransformationItem.quantity := quantity item;
            TransformationItem.cost_per_unit := cost_per_unit item;
            TransformationItem.total_cost := total_cost item |})
      items.

(** [inventory] and [totalCost] are the state of the page: the
    inventory as [fetchData] left it, and the total the effect stored
    when it last ran.  The transformation is stored with that state, the
    items with the fields of the form. *)
Definition onSubmit (inventory : list InventoryItem.t) (totalCost : number)
  (user_id : option string)
  (transformationAnswer : inserted) (itemsError : option string)
  (data : TransformationFormValues) (db : database) : database * outcome :=
  match firstShortage inventory (branch_id data) (source_items data) with
  | Some availableQuantity => (db, Rejected (InsufficientStock availableQuantity))
  | None =>
      match transformationAnswer with
      | inl message => (db, Rejected (BackendError message))
      | inr new_id =>
          let db1 :=
            set_transformations
              (transformations db ++
                 [ {| Transformation.id := new_id;
                      Transformation.reference_number := reference_number data;
                      Transformation.branch_id := branch_id data;
                      Transformation.target_product_id := target_product_id data;
                      Transformation.target_quantity := target_quantity data;
                      Transformation.total_cost := totalCost;
                      Transformation.notes := or_null (notes data);
                      Transformation.created_by := user_id |} ])
              db in
          match itemsError with
          | Some message => (db1, Rejected (BackendError message))
          | None =>
              (set_transformation_items
                 (transformation_items db1
                    ++ transformationItems new_id (source_items data))
                 db1,
               Pushed "/dashboard/transformations")
          end
      end
  end.

Definition submit (inventory : list InventoryItem.t) (totalCost : number)
  (user_id : option string)
  (transformationAnswer : inserted) (itemsError : option string) :=
  handleSubmit transformationSchema
    (onSubmit inventory totalCost user_id transformationAnswer itemsError).

End AddTransformationPage.

(** ** AddPurchasePage (src/unnamed/part_008) *)

Module AddPurchasePage.

Record PurchaseItemFormValues : Type := {
  product_id : string;
  quantity : number;
  unit_price : number;
  vat_percentage : number;
  total_price : number
}.

Record PurchaseInvoiceFormValues : Type := {
  invoice_number : string;
  supplier : string;
  branch_id : string;
  items : list PurchaseItemFormValues
}.

Definition purchaseItemSchema (item : PurchaseItemFormValues) : bool :=
  nonempty (product_id item)
  && (quantity item >=? of_frac 1 100)%num
  && (unit_price item >=? of_frac 1 100)%num
  && (vat_percentage item >=? zero)%num && le (vat_percentage item) (of_Z 100)
  && (total_price item >=? zero)%num.

Definition purchaseInvoiceSchema (data : PurchaseInvoiceFormValues) : bool :=
  nonempty (invoice_number data) && nonempty (supplier data)
  && nonempty (branch_id data)
  && forallb purchaseItemSchema (items data)
  && (1 <=? List.length (items data))%nat.

(** The effect on [watchItems]: the callback of [forEach] on the two
    running sums, and [(subTotal, vatAmount)] after the loop. *)
Definition addItem (running : number * number) (item : PurchaseItemFormValues)
  : number * number :=
  let '(subTotal, vatAmount) := running in
  if truthy (quantity item) && truthy (unit_price item) then
    let itemSubtotal := (quantity item * unit_price item)%num in
    let itemVAT :=
      calculateVAT itemSubtotal (vat_percentage item / of_Z 100)%num in
    ((subTotal + itemSubtotal)%num, (vatAmount + itemVAT)%num)
  else (subTotal, vatAmount).

Definition sums (watchItems : list PurchaseItemFormValues) : number * number :=
  fold_left addItem watchItems (zero, zero).

(** The values the effect passes to [setTotalAmount] and [setTotalVAT]
    when it runs. *)
Definition totalsEffect (watchItems : list PurchaseItemFormValues) : number * number :=
  let '(subTotal, vatAmount) := sums watchItems in
  ((subTotal + vatAmount)%num, vatAmount).

(** [defaultValues.items]: the row the form starts with. *)
Definition defaultItems : list PurchaseItemFormValues :=
  [ {| product_id := "";
       quantity := of_Z 1;
       unit_price := of_Z 0;
       vat_percentage := of_Z 15;
       total_price := of_Z 0 |} ].

(** [calculateItemTotal(index)]: the value written in [total_price]. *)
Definition calculateItemTotal (item : PurchaseItemFormValues) : PurchaseItemFormValues :=
  if truthy (quantity item) && truthy (unit_price item) then
    let subtotal := (quantity item * unit_price item)%num in
    {| product_id := product_id item;
       quantity := quantity item;
       unit_price := unit_price item;
       vat_percentage := vat_percentage item;
       total_price :=
         calculateTotalWithVAT subtotal (vat_percentage item / of_Z 100)%num |}
  else item.

Definition purchaseItems (purchase_invoice_id : string)
  (data_items : list PurchaseItemFormValues) : list PurchaseItem.t :=
  map (fun item =>
         {| PurchaseItem.purchase_invoice_id := purchase_invoice_id;
            PurchaseItem.product_id := product_id item;
            PurchaseItem.quantity := quantity item;
            PurchaseItem.unit_price := unit_price item;
            PurchaseItem.vat_percentage := vat_percentage item;
            PurchaseItem.total_price := total_price item |})
      data_items.

(** [totalAmount] and [totalVAT] are the state of the page: what the
    effect stored when it last ran.  The invoice is stored with that
    state, the purchase items with the fields of the form. *)
Definition onSubmit (totalAmount totalVAT : number) (user_id : option string)
  (invoiceAnswer : inserted) (itemsError : option string)
  (data : PurchaseInvoiceFormValues) (db : database) : database * outcome :=
  match invoiceAnswer with
  | inl message => (db, Rejected (BackendError message))
  | inr new_id =>
      let db1 :=
        set_purchase_invoices
          (purchase_invoices db ++
             [ {| PurchaseInvoice.id := new_id;
                  PurchaseInvoice.invoice_number := invoice_number data;
                  PurchaseInvoice.supplier := supplier data;
                  PurchaseInvoice.branch_id := branch_id data;
                  PurchaseInvoice.total_amount := totalAmount;
                  PurchaseInvoice.vat_amount := totalVAT;
                  PurchaseInvoice.created_by := user_id |} ])
          db in
      match itemsError with
      | Some message => (db1, Rejected (BackendError message))
      | None =>
          (set_purchase_items
             (purchase_items db1 ++ purchaseItems new_id (items data)) db1,
           Pushed "/dashboard/purchases")
      end
  end.

Definition submit (totalAmount totalVAT : number) (user_id : option string)
  (invoiceAnswer : inserted) (itemsError : option string) :=
  handleSubmit purchaseInvoiceSchema
    (onSubmit totalAmount totalVAT user_id invoiceAnswer itemsError).

End AddPurchasePage.

(** ** The list pages and their delete buttons

    Each handler removes the row from its table with
    [.delete().eq('id', ...)] and then drops it from the list it shows.
    What the database does next by itself is no part of the handler. *)

Module PurchasesPage.

(** src/app/dashboard/purchases/page.tsx *)
Definition handleDeletePurchase (confirmed : bool) (deleteError : option string)
  (purchaseId : string) (purchases : list PurchaseInvoice.t) (db : database)
  : database * list PurchaseInvoice.t * outcome :=
  if negb confirmed then (db, purchases, Ignored)
  else
    match deleteError with
    | Some message => (db, purchases, Rejected (BackendError message))
    | None =>
        (set_purchase_invoices
           (filter (fun row => negb (String.eqb (PurchaseInvoice.id row) purchaseId))
                   (purchase_invoices db))
           db,
         filter (fun purchase => negb (String.eqb (PurchaseInvoice.id purchase) purchaseId))
                purchases,
         Stayed)
    end.

End PurchasesPage.

Module TransformationsPage.

(** src/app/dashboard/transformations/page.tsx *)
Definition handleDeleteTransformation (confirmed : bool) (deleteError : option string)
  (transformationId : string) (shown : list Transformation.t) (db : database)
  : database * list Transformation.t * outcome :=
  if negb confirmed then (db, shown, Ignored)
  else
    match deleteError with
    | Some message => (db, shown, Rejected (BackendError message))
    | None =>
        (set_transformations
           (filter (fun row => negb (String.eqb (Transformation.id row) transformationId))
                   (transformations db))
           db,
         filter (fun transformation =>
                   negb (String.eqb (Transformation.id transformation) transformationId))
                shown,
         Stayed)
    end.

End TransformationsPage.

Module WastePage.

(** src/app/dashboard/waste/page.tsx *)
Definition handleDeleteWaste (confirmed : bool) (deleteError : option string)
  (wasteId : string) (wasteRecords : list Waste.t) (db : database)
  : database * list Waste.t * outcome :=
  if negb confirmed then (db, wasteRecords, Ignored)
  else
    match deleteError with
    | Some message => (db, wasteRecords, Rejected (BackendError message))
    | None =>
        (set_waste
           (filter (fun row => negb (String.eqb (Waste.id row) wasteId)) (waste db))
           db,
         filter (fun waste => negb (String.eqb (Waste.id waste) wasteId)) wasteRecords,
         Stayed)
    end.

End WastePage.

(** ** src/app/dashboard/inventory-audits/edit/[id]/page.tsx *)

Module EditInventoryAuditPage.

Record state : Type := {
  auditId : string;                       (* [params.id] *)
  audit : option InventoryAudit.t;
  auditItems : list InventoryAuditItem.t
}.

Definition with_auditItems (items : list InventoryAuditItem.t) (st : state) : state :=
  {| auditId := auditId st; audit := audit st; auditItems := items |}.

(** [{ ...i, actual_quantity: value, difference: difference }] for the
    row whose id is [itemId]. *)
Definition count (itemId : string) (value difference : number)
  (i : InventoryAuditItem.t) : InventoryAuditItem.t :=
  if String.eqb (InventoryAuditItem.id i) itemId then
    {| InventoryAuditItem.id := InventoryAuditItem.id i;
       InventoryAuditItem.audit_id := InventoryAuditItem.audit_id i;
       InventoryAuditItem.product_id := InventoryAuditItem.product_id i;
       InventoryAuditItem.expected_quantity := InventoryAuditItem.expected_quantity i;
       InventoryAuditItem.actual_quantity := Some value;
       InventoryAuditItem.difference := Some difference;
       InventoryAuditItem.notes := InventoryAuditItem.notes i |}
  else i.

Definition handleActualQuantityChange (updateError : option string)
  (itemId : string) (value : number) (st : state) (db : database)
  : database * state * outcome :=
  match find (fun i => String.eqb (InventoryAuditItem.id i) itemId) (auditItems st) with
  | None => (db, st, Ignored)
  | Some item =>
      let difference := (value - InventoryAuditItem.expected_quantity item)%num in
      match updateError with
      | Some message => (db, st, Rejected (BackendError message))
      | None =>
          (set_inventory_audit_items
             (map (count itemId value difference) (inventory_audit_items db)) db,
           with_auditItems (map (count itemId value difference) (auditItems st)) st,
           Stayed)
      end
  end.

(** [.update({status: 'completed', ...}).eq('id', auditId)] *)
Definition complete (id : string) (now : string) (user_id : option string)
  (row : InventoryAudit.t) : InventoryAudit.t :=
  if String.eqb (InventoryAudit.id row) id then
    {| InventoryAudit.id := InventoryAudit.id row;
       InventoryAudit.branch_id := InventoryAudit.branch_id row;
       InventoryAudit.status := completed;
       InventoryAudit.completed_at := Some now;
       InventoryAudit.completed_by := user_id;
       InventoryAudit.updated_at := Some now;
       InventoryAudit.updated_by := user_id |}
  else row.

Definition uncounted (item : InventoryAuditItem.t) : bool :=
  match InventoryAuditItem.actual_quantity item with
  | None => true
  | Some _ => false
  end.

Definition handleCompleteAudit (confirmed : bool) (now : string)
  (user_id : option string) (updateError : option string)
  (st : state) (db : database) : database * outcome :=
  let incompleteItems := filter uncounted (auditItems st) in
  if (0 <? List.length incompleteItems)%nat then (db, Rejected IncompleteAudit)
  else if negb confirmed then (db, Ignored)
  else
    match updateError with
    | Some message => (db, Rejected (BackendError message))
    | None =>
        (set_inventory_audits
           (map (complete (auditId st) now user_id) (inventory_audits db)) db,
         Pushed "/dashboard/inventory-audits")
    end.

End EditInventoryAuditPage.

(** ** The other handlers of the audit page
    (src/app/dashboard/inventory-audits/edit/[id]/page.tsx) *)

Module EditInventoryAuditHandlers.

Import EditInventoryAuditPage.

Definition with_audit (a : option InventoryAudit.t) (st : state) : state :=
  {| auditId := auditId st; audit := a; auditItems := auditItems st |}.

(** [{ ...i, notes: value }] for the row whose id is [itemId]. *)
Definition annotate (itemId value : string) (i : InventoryAuditItem.t)
  : InventoryAuditItem.t :=
  if String.eqb (InventoryAuditItem.id i) itemId then
    {| InventoryAuditItem.id := InventoryAuditItem.id i;
       InventoryAuditItem.audit_id := InventoryAuditItem.audit_id i;
       InventoryAuditItem.product_id := InventoryAuditItem.product_id i;
       InventoryAuditItem.expected_quantity := InventoryAuditItem.expected_quantity i;
       InventoryAuditItem.actual_quantity := InventoryAuditItem.actual_quantity i;
       InventoryAuditItem.difference := InventoryAuditItem.difference i;
       InventoryAuditItem.notes := Some value |}
  else i.

Definition handleItemNoteChange (updateError : option string)
  (itemId value : string) (st : state) (db : database)
  : database * state * outcome :=
  match updateError with
  | Some message => (db, st, Rejected (BackendError message))
  | None =>
      (set_inventory_audit_items
         (map (annotate itemId value) (inventory_audit_items db)) db,
       with_auditItems (map (annotate itemId value) (auditItems st)) st,
       Stayed)
  end.

(** [{ ...row, status, updated_at, updated_by }] for the audit of the page. *)
Definition restatus (id : string) (status : audit_status) (now : string)
  (user_id : option string) (row : InventoryAudit.t) : InventoryAudit.t :=
  if String.eqb (InventoryAudit.id row) id then
    {| InventoryAudit.id := InventoryAudit.id row;
       InventoryAudit.branch_id := InventoryAudit.branch_id row;
       InventoryAudit.status := status;
       InventoryAudit.completed_at := InventoryAudit.completed_at row;
       InventoryAudit.completed_by := InventoryAudit.completed_by row;
       InventoryAudit.updated_at := Some now;
       InventoryAudit.updated_by := user_id |}
  else row.

(** [prev ? { ...prev, status: 'in_progress' } : null] *)
Definition in_progress_locally (prev : option InventoryAudit.t) : option InventoryAudit.t :=
  match prev with
  | Some a =>
      Some {| InventoryAudit.id := InventoryAudit.id a;
              InventoryAudit.branch_id := InventoryAudit.branch_id a;
              InventoryAudit.status := in_progress;
              InventoryAudit.completed_at := InventoryAudit.completed_at a;
              InventoryAudit.completed_by := InventoryAudit.completed_by a;
              InventoryAudit.updated_at := InventoryAudit.updated_at a;
              InventoryAudit.updated_by := InventoryAudit.updated_by a |}
  | None => None
  end.

Definition is_draft (a : option InventoryAudit.t) : bool :=
  match a with
  | Some row => match InventoryAudit.status row with draft => true | _ => false end
  | None => false
  end.

Definition handleSaveAudit (now : string) (user_id : option string)
  (updateError : option string) (st : state) (db : database)
  : database * state * outcome :=
  if is_draft (audit st) then
    match updateError with
    | Some message => (db, st, Rejected (BackendError message))
    | None =>
        (set_inventory_audits
           (map (restatus (auditId st) in_progress now user_id) (inventory_audits db)) db,
         with_audit (in_progress_locally (audit st)) st,
         Pushed "/dashboard/inventory-audits")
    end
  else (db, st, Pushed "/dashboard/inventory-audits").

Definition handleCancelAudit (confirmed : bool) (now : string)
  (user_id : option string) (updateError : option string)
  (st : state) (db : database) : database * outcome :=
  if negb confirmed then (db, Ignored)
  else
    match updateError with
    | Some message => (db, Rejected (BackendError message))
    | None =>
        (set_inventory_audits
           (map (restatus (auditId st) cancelled now user_id) (inventory_audits db)) db,
         Pushed "/dashboard/inventory-audits")
    end.

(** How the effect that loads the page ends. *)
Inductive loaded : Type :=
| Loaded (st : state)
| NotEditable                     (* the audit is completed or cancelled *)
| LoadFailed (message : string).  (* an error of the backend *)

(** The answers of the backend to the calls of [fetchAuditData], in the
    order of the calls: the error it gives to the read of the audit for
    reasons of its own, the message of [.single()] when no row or several
    have the id, the errors of the reads of the branch, of the items and
    of the inventory, the ids given to the inserted items (by product) or
    the error of the insert, and the error of the update of the audit. *)
Record answers : Type := {
  auditError : option string;
  singleError : string;
  branchError : option string;
  itemsError : option string;
  inventoryError : option string;
  insertAnswer : string + (string -> string);
  updateError : option string
}.

(** [auditItemsToInsert], with the ids the backend gives. *)
Definition auditItemsToInsert (auditId : string) (new_id : string -> string)
  (inventoryData : list InventoryItem.t) : list InventoryAuditItem.t :=
  map (fun item =>
         {| InventoryAuditItem.id := new_id (InventoryItem.product_id item);
            InventoryAuditItem.audit_id := auditId;
            InventoryAuditItem.product_id := InventoryItem.product_id item;
            InventoryAuditItem.expected_quantity := InventoryItem.quantity item;
            InventoryAuditItem.actual_quantity := None;
            InventoryAuditItem.difference := None;
            InventoryAuditItem.notes := None |})
      inventoryData.

Definition editable (status : audit_status) : bool :=
  match status with
  | draft | in_progress => true
  | _ => false
  end.

(** [.update({ status: 'in_progress', item_count })]: the status of the
    audit of the page.  [item_count] is a column no page reads back and
    [InventoryAudit.t] has no field for it; the other columns are kept. *)
Definition start (id : string) (row : InventoryAudit.t) : InventoryAudit.t :=
  if String.eqb (InventoryAudit.id row) id then
    {| InventoryAudit.id := InventoryAudit.id row;
       InventoryAudit.branch_id := InventoryAudit.branch_id row;
       InventoryAudit.status := in_progress;
       InventoryAudit.completed_at := InventoryAudit.completed_at row;
       InventoryAudit.completed_by := InventoryAudit.completed_by row;
       InventoryAudit.updated_at := InventoryAudit.updated_at row;
       InventoryAudit.updated_by := InventoryAudit.updated_by row |}
  else row.

(** [.order('id', { ascending: true })]: the rows by increasing id, ids
    being compared as strings, code unit by code unit; rows of equal ids
    keep their order. *)
Fixpoint insert_by_id (item : InventoryAuditItem.t) (sorted : list InventoryAuditItem.t)
  : list InventoryAuditItem.t :=
  match sorted with
  | [] => [item]
  | first :: rest =>
      if String.leb (InventoryAuditItem.id item) (InventoryAuditItem.id first)
      then item :: sorted
      else first :: insert_by_id item rest
  end.

Definition order_by_id (rows : list InventoryAuditItem.t) : list InventoryAuditItem.t :=
  fold_right insert_by_id [] rows.

(** The effect [fetchAuditData]: the audit, its items by increasing id,
    and, for a draft without items, the items created from the inventory
    of the branch, shown as the insert returns them. *)
Definition fetchAuditData (id : string) (backend : answers) (db : database)
  : database * loaded :=
  match auditError backend with
  | Some message => (db, LoadFailed message)
  | None =>
  match single (filter (fun row => String.eqb (InventoryAudit.id row) id)
                       (inventory_audits db)) with
  | None => (db, LoadFailed (singleError backend))
  | Some auditData =>
      if negb (editable (InventoryAudit.status auditData)) then (db, NotEditable)
      else
        match branchError backend with
        | Some message => (db, LoadFailed message)
        | None =>
            match itemsError backend with
            | Some message => (db, LoadFailed message)
            | None =>
                let itemsData :=
                  order_by_id
                    (filter (fun item => String.eqb (InventoryAuditItem.audit_id item) id)
                            (inventory_audit_items db)) in
                if (List.length itemsData =? 0)%nat && is_draft (Some auditData) then
                  match inventoryError backend with
                  | Some message => (db, LoadFailed message)
                  | None =>
                      let inventoryData :=
                        filter (fun item =>
                                  String.eqb (InventoryItem.branch_id item)
                                             (InventoryAudit.branch_id auditData))
                               (inventory_items db) in
                      if (0 <? List.length inventoryData)%nat then
                        match insertAnswer backend with
                        | inl message => (db, LoadFailed message)
                        | inr new_id =>
                            let newItemsData :=
                              auditItemsToInsert id new_id inventoryData in
                            let db1 :=
                              set_inventory_audit_items
                                (inventory_audit_items db ++ newItemsData) db in
                            match updateError backend with
                            | Some message => (db1, LoadFailed message)
                            | None =>
                                (set_inventory_audits
                                   (map (start id) (inventory_audits db1)) db1,
                                 Loaded
                                   {| auditId := id;
                                      audit := in_progress_locally (Some auditData);
                                      auditItems := newItemsData |})
                            end
                        end
                      else
                        (db, Loaded {| auditId := id;
                                       audit := Some auditData;
                                       auditItems := [] |})
                  end
                else
                  (db, Loaded {| auditId := id;
                                 audit := Some auditData;
                                 auditItems := itemsData |})
            end
        end
  end
  end.

End EditInventoryAuditHandlers.

(** ** Adding a row to a form *)

Module AddingRows.





End AddingRows.

(** ** The auth store (fourth component of
    src/app/dashboard/inventory-audits/add/page.tsx) and the guards
    (src/unnamed/part_000, src/components/auth/branch-guard.tsx) *)

Module Auth.

Inductive UserRole : Type := admin | branch_manager | user.

Definition role_eqb (a b : UserRole) : bool :=
  match a, b with
  | admin, admin | branch_manager, branch_manager | user, user => true
  | _, _ => false
  end.

Record User : Type := {
  id : string;
  role : UserRole;
  branch_id : option string
}.

Inductive Language : Type := ar | en.
Inductive Theme : Type := light | dark.

Record AuthState : Type := {
  current : option User;     (* [user] *)
  isLoading : bool;
  isAuthenticated : bool;
  language : Language;
  theme : Theme
}.

Definition initial : AuthState :=
  {| current := None; isLoading := true; isAuthenticated := false;
     language := ar; theme := light |}.

(** [!!user] *)
Definition present (u : option User) : bool :=
  match u with Some _ => true | None => false end.

Definition setUser (u : option User) (s : AuthState) : AuthState :=
  {| current := u; isLoading := false; isAuthenticated := present u;
     language := language s; theme := theme s |}.

Definition setIsLoading (loading : bool) (s : AuthState) : AuthState :=
  {| current := current s; isLoading := loading; isAuthenticated := isAuthenticated s;
     language := language s; theme := theme s |}.

Definition setLanguage (l : Language) (s : AuthState) : AuthState :=
  {| current := current s; isLoading := isLoading s; isAuthenticated := isAuthenticated s;
     language := l; theme := theme s |}.

Definition setTheme (t : Theme) (s : AuthState) : AuthState :=
  {| current := current s; isLoading := isLoading s; isAuthenticated := isAuthenticated s;
     language := language s; theme := t |}.

Definition logout (s : AuthState) : AuthState :=
  {| current := None; isLoading := isLoading s; isAuthenticated := false;
     language := language s; theme := theme s |}.

(** The calls a component can make on the store. *)
Inductive call : Type :=
| SetUser (u : option User)
| SetIsLoading (loading : bool)
| SetLanguage (l : Language)
| SetTheme (t : Theme)
| Logout.

Definition apply_call (c : call) (s : AuthState) : AuthState :=
  match c with
  | SetUser u => setUser u s
  | SetIsLoading loading => setIsLoading loading s
  | SetLanguage l => setLanguage l s
  | SetTheme t => setTheme t s
  | Logout => logout s
  end.

Definition after (calls : list call) (s : AuthState) : AuthState :=
  fold_left (fun st c => apply_call c st) calls s.

(** What a guard renders. *)
Inductive rendered : Type :=
| Spinner
| Redirected (path : string)   (* [router.push(path); return null] *)
| Children.

Definition default_fallbackPath : string := "/dashboard".

Definition RoleGuard (s : AuthState) (allowedRoles : list UserRole) (fallbackPath : string)
  : rendered :=
  if isLoading s then Spinner
  else
    match current s with
    | None => Redirected "/auth/login"
    | Some u =>
        if negb (isAuthenticated s) then Redirected "/auth/login"
        else if negb (existsb (role_eqb (role u)) allowedRoles) then Redirected fallbackPath
        else Children
    end.

(** [user.branch_id !== branchId] *)
Definition other_branch (u : User) (branchId : string) : bool :=
  match branch_id u with
  | Some b => negb (String.eqb b branchId)
  | None => true
  end.

Definition BranchGuard (s : AuthState) (branchId : string) (fallbackPath : string)
  : rendered :=
  if isLoading s then Spinner
  else
    match current s with
    | None => Redirected "/auth/login"
    | Some u =>
        if negb (isAuthenticated s) then Redirected "/auth/login"
        else if role_eqb (role u) admin then Children
        else if other_branch u branchId then Redirected fallbackPath
        else Children
    end.

End Auth.

(** ** src/lib/utils/format.ts *)

Module Format.

(** [n.toString()] for a non-negative integer (below 10^21, where
    JavaScript prints every digit). *)
Definition toString (n : N) : string := NilZero.string_of_uint (N.to_uint n).

(** [s.slice(-k)] *)
Definition slice_last (k : nat) (s : string) : string :=
  substring (String.length s - k) k s.

Fixpoint repeat_char (c : ascii) (n : nat) : string :=
  match n with
  | O => EmptyString
  | S n' => String c (repeat_char c n')
  end.

(** [s.padStart(targetLength, c)] with a pad of one character. *)
Definition padStart (targetLength : nat) (c : ascii) (s : string) : string :=
  append (repeat_char c (targetLength - String.length s)) s.

(** [s.split(sep)] with a separator of one character. *)
Fixpoint split (sep : ascii) (s : string) : list string :=
  match s with
  | EmptyString => [EmptyString]
  | String c rest =>
      if Ascii.eqb c sep then EmptyString :: split sep rest
      else
        match split sep rest with
        | part :: parts => String c part :: parts
        | [] => [String c EmptyString]
        end
  end.

(** [generateInvoiceNumber()], with the value of [Date.now()] and the
    value of [Math.floor(Math.random() * 1000)] as arguments. *)
Definition generateInvoiceNumber (now random : N) : string :=
  let prefix := "INV"%string in
  let timestamp := slice_last 6 (toString now) in
  let random := padStart 3 "0" (toString random) in
  append prefix (append "-" (append timestamp (append "-" random))).

(** The default reference number of the waste, transformation and audit
    forms: [`${label}-${generateInvoiceNumber().split('-')[1]}`]; a
    missing element would print as [undefined]. *)
Definition defaultReference (label : string) (now random : N) : string :=
  append label
    (append "-"
       match nth_error (split "-" (generateInvoiceNumber now random)) 1 with
       | Some part => part
       | None => "undefined"%string
       end).

(** No character of [s] is [c]. *)
Fixpoint free_of (c : ascii) (s : string) : bool :=
  match s with
  | EmptyString => true
  | String c' rest => negb (Ascii.eqb c' c) && free_of c rest
  end.

End Format.

(** ** AddInventoryAuditPage (first component of
    src/app/dashboard/inventory-audits/add/page.tsx) *)

(** The rows of [inventory_audits] with the columns this page reads and
    writes. *)
Module InventoryAuditRow.
Record t : Type := {
  id : string;
  reference_number : string;
  branch_id : string;
  audit_date : string;
  status : audit_status;
  notes : option string;
  created_by : option string
}.
End InventoryAuditRow.

Module AddInventoryAuditPage.

Record AuditFormValues : Type := {
  reference_number : string;
  branch_id : string;
  audit_date : string;
  notes : option string
}.

Definition auditSchema (data : AuditFormValues) : bool :=
  nonempty (reference_number data) && nonempty (branch_id data)
  && nonempty (audit_date data).

(** What [onSubmit] leaves behind: the route pushed, the error thrown by
    the page's own check, or the message of the backend. *)
Inductive submitted : Type :=
| Opened (route : string)
| DuplicateAudit
| Failed (message : string)
| NotSubmitted.

Definition is_cancelled (s : audit_status) : bool :=
  match s with cancelled => true | _ => false end.

(** [.eq('branch_id', ...).eq('audit_date', ...).not('status', 'eq', 'cancelled')] *)
Definition same_branch_and_date (data : AuditFormValues) (row : InventoryAuditRow.t) : bool :=
  String.eqb (InventoryAuditRow.branch_id row) (branch_id data)
  && String.eqb (InventoryAuditRow.audit_date row) (audit_date data)
  && negb (is_cancelled (InventoryAuditRow.status row)).

Definition existingAudit (data : AuditFormValues) (audits : list InventoryAuditRow.t)
  : list string :=
  map InventoryAuditRow.id (filter (same_branch_and_date data) audits).

Definition onSubmit (user_id : option string) (checkError : option string)
  (auditAnswer : inserted) (data : AuditFormValues) (audits : list InventoryAuditRow.t)
  : list InventoryAuditRow.t * submitted :=
  match checkError with
  | Some message => (audits, Failed message)
  | None =>
      if (0 <? List.length (existingAudit data audits))%nat then (audits, DuplicateAudit)
      else
        match auditAnswer with
        | inl message => (audits, Failed message)
        | inr new_id =>
            (audits ++
               [ {| InventoryAuditRow.id := new_id;
                    InventoryAuditRow.reference_number := reference_number data;
                    InventoryAuditRow.branch_id := branch_id data;
                    InventoryAuditRow.audit_date := audit_date data;
                    InventoryAuditRow.status := draft;
                    InventoryAuditRow.notes := or_null (notes data);
                    InventoryAuditRow.created_by := user_id |} ],
             Opened (append "/dashboard/inventory-audits/edit/" new_id))
        end
  end.

Definition submit (user_id : option string) (checkError : option string)
  (auditAnswer : inserted) (data : AuditFormValues) (audits : list InventoryAuditRow.t)
  : list InventoryAuditRow.t * submitted :=
  if auditSchema data then onSubmit user_id checkError auditAnswer data audits
  else (audits, NotSubmitted).

End AddInventoryAuditPage.

(** ** PurchasesReportPage (second component of
    src/app/dashboard/inventory/adjust/[id]/page.tsx)

    The part of [fetchReportData] that turns the invoices returned by the
    query into totals and groups.  A [Map] is the list of its entries in
    insertion order.  The sort that orders [bySupplier], [byProduct] and
    [byDate] for display, and the cut of the first two to ten entries,
    are not represented: the definitions below are the maps those lists
    are made from. *)

Module PurchasesReportPage.

Record ReportItem : Type := {
  product_id : option string;
  product_name : option string;      (* [item.product.name] *)
  total_price : number
}.

Record ReportInvoice : Type := {
  invoice_date : string;
  supplier_id : option string;
  supplier_name : option string;     (* [invoice.supplier.name] *)
  total_amount : number;
  vat_amount : number;
  purchase_items : list ReportItem
}.




(** [x || 0] *)
Definition or_zero (x : option number) : number :=
  match x with
  | Some v => if truthy v then v else zero
  | None => zero
  end.


Definition totalAmount (invoices : list ReportInvoice) : number :=
  or_zero (Some (fold_left (fun sum invoice => (sum + total_amount invoice)%num)
                           invoices zero)).

Definition totalVat (invoices : list ReportInvoice) : number :=
  or_zero (Some (fold_left (fun sum invoice => (sum + vat_amount invoice)%num)
                           invoices zero)).

Definition invoiceCount (invoices : list ReportInvoice) : nat := List.length invoices.






End PurchasesReportPage.

(** ** The stock ledger kept by the database

    Every page that records a purchase, a transformation, a waste or the
    completion of an audit ends with the remark that the stock is updated
    by a trigger of the database.  No trigger is part of the sources; the
    operations below are the ledger as the specification describes it, on
    the [inventory_items] and [inventory_adjustments] tables. *)

Module StockLedger.

(** Modelled from the spec: the two error kinds of the ledger operations
    (the trigger code is missing), a quantity that is not positive and a
    deduction above the ledger quantity. *)
Inductive error : Type := InvalidQuantity | InsufficientStock.

Section Operations.

(** The id the database gives to the row of a new (product, branch) pair. *)
Variable item_id : string -> string -> string.
Variable now : string.

(** Modelled from the spec: [getOrCreate(productId, branchId)] of the
    Stock Ledger (the trigger code is missing), which "returns
    existing entry or a zero-initialized one". *)
Definition getOrCreate (rows : list InventoryItem.t) (productId branchId : string)
  : InventoryItem.t :=
  match find_item rows productId branchId with
  | Some entry => entry
  | None =>
      {| InventoryItem.id := item_id productId branchId;
         InventoryItem.product_id := productId;
         InventoryItem.branch_id := branchId;
         InventoryItem.quantity := zero;
         InventoryItem.average_cost := zero;
         InventoryItem.updated_at := EmptyString |}
  end.

(** Modelled from the spec: storing an entry of the Stock Ledger (the
    trigger code is missing); there is "one per product x branch
    pair", created "lazily on first movement" and never deleted. *)
Fixpoint put (entry : InventoryItem.t) (rows : list InventoryItem.t)
  : list InventoryItem.t :=
  match rows with
  | [] => [entry]
  | row :: rest =>
      if String.eqb (InventoryItem.product_id row) (InventoryItem.product_id entry)
         && String.eqb (InventoryItem.branch_id row) (InventoryItem.branch_id entry)
      then entry :: rest
      else row :: put entry rest
  end.

(** Modelled from the spec: [applyPositiveMovement] of the Stock Ledger
    (the trigger code is missing): "qty > 0 required (else
    InvalidQuantity error); recomputes average cost via blend,
    increments quantity, updates timestamp". *)
Definition applyPositiveMovement (productId branchId : string)
  (qty unitCost : number) (rows : list InventoryItem.t)
  : error + list InventoryItem.t :=
  if (qty >? zero)%num then
    let entry := getOrCreate rows productId branchId in
    inr (put {| InventoryItem.id := InventoryItem.id entry;
                InventoryItem.product_id := InventoryItem.product_id entry;
                InventoryItem.branch_id := InventoryItem.branch_id entry;
                InventoryItem.quantity := (InventoryItem.quantity entry + qty)%num;
                InventoryItem.average_cost :=
                  calculateAverageCost (InventoryItem.quantity entry)
                    (InventoryItem.average_cost entry) qty unitCost;
                InventoryItem.updated_at := now |}
             rows)
  else inl InvalidQuantity.

(** Modelled from the spec: [applyNegativeMovement] of the Stock Ledger
    (the trigger code is missing): "qty > 0 required; fails with
    InsufficientStock if qty exceeds current ledger quantity;
    decrements quantity; average_cost is unchanged". *)
Definition applyNegativeMovement (productId branchId : string)
  (qty : number) (rows : list InventoryItem.t)
  : error + list InventoryItem.t :=
  if (qty >? zero)%num then
    let entry := getOrCreate rows productId branchId in
    if (qty >? InventoryItem.quantity entry)%num then inl InsufficientStock
    else
      inr (put {| InventoryItem.id := InventoryItem.id entry;
                  InventoryItem.product_id := InventoryItem.product_id entry;
                  InventoryItem.branch_id := InventoryItem.branch_id entry;
                  InventoryItem.quantity := (InventoryItem.quantity entry - qty)%num;
                  InventoryItem.average_cost := InventoryItem.average_cost entry;
                  InventoryItem.updated_at := now |}
               rows)
  else inl InvalidQuantity.

(** Modelled from the spec: [setAbsolute(productId, branchId, qty,
    actorReason)] of the Stock Ledger (the trigger code is missing),
    which "replaces quantity directly (average cost unchanged) and
    must itself create an explicit adjustment movement record equal to
    the signed delta".  The movement is a row of
    [inventory_adjustments], the table the manual adjustment writes. *)
Definition setAbsolute (productId branchId : string) (qty : number)
  (actorReason : string)
  (ledger : list InventoryItem.t * list InventoryAdjustment.t)
  : list InventoryItem.t * list InventoryAdjustment.t :=
  let entry := getOrCreate (fst ledger) productId branchId in
  (put {| InventoryItem.id := InventoryItem.id entry;
          InventoryItem.product_id := InventoryItem.product_id entry;
          InventoryItem.branch_id := InventoryItem.branch_id entry;
          InventoryItem.quantity := qty;
          InventoryItem.average_cost := InventoryItem.average_cost entry;
          InventoryItem.updated_at := InventoryItem.updated_at entry |}
       (fst ledger),
   snd ledger ++
     [ {| InventoryAdjustment.inventory_item_id := InventoryItem.id entry;
          InventoryAdjustment.previous_quantity := InventoryItem.quantity entry;
          InventoryAdjustment.new_quantity := qty;
          InventoryAdjustment.reason := actorReason |} ]).

(** Modelled from the spec: the ledger side of RecordPurchase (the
    trigger on [purchase_items] is missing): "one applyPositiveMovement
    call per item", the unit price being the incoming cost, and the
    whole batch failing when one of them fails. *)
Fixpoint receive (branchId : string) (items : list PurchaseItem.t)
  (rows : list InventoryItem.t) : error + list InventoryItem.t :=
  match items with
  | [] => inr rows
  | item :: rest =>
      match applyPositiveMovement (PurchaseItem.product_id item) branchId
              (PurchaseItem.quantity item) (PurchaseItem.unit_price item) rows with
      | inl e => inl e
      | inr rows' => receive branchId rest rows'
      end
  end.

(** Modelled from the spec: the ledger side of Complete() (the trigger
    on [inventory_audits] is missing): "for every item with difference
    <> 0, call StockLedger.setAbsolute(productId, branchId,
    actual_quantity, audit reconciliation)". *)
Definition reconcile (branchId : string) (items : list InventoryAuditItem.t)
  (ledger : list InventoryItem.t * list InventoryAdjustment.t)
  : list InventoryItem.t * list InventoryAdjustment.t :=
  fold_left
    (fun ledger item =>
       match InventoryAuditItem.actual_quantity item,
             InventoryAuditItem.difference item with
       | Some actual, Some difference =>
           if (difference === zero)%num then ledger
           else setAbsolute (InventoryAuditItem.product_id item) branchId
                  actual "audit reconciliation" ledger
       | _, _ => ledger
       end)
    items ledger.

End Operations.

(** Modelled from the spec: the current ledger quantity of a (product,
    branch) pair (the trigger code is missing): the quantity of the
    entry [getOrCreate] returns, 0 when there is none yet. *)
Definition quantity (rows : list InventoryItem.t) (productId branchId : string) : number :=
  match find_item rows productId branchId with
  | Some entry => InventoryItem.quantity entry
  | None => zero
  end.

End StockLedger.

(** The sum of a list of numbers, from the left. *)
Definition sum (l : list number) : number := fold_left add l zero.

(** What a transformation asks of one product: the quantities of all its
    source items of that product together. *)
Definition requested (productId : string)
  (items : list AddTransformationPage.TransformationItemFormValues) : number :=
  sum (map AddTransformationPage.quantity
         (filter (fun item => String.eqb (AddTransformationPage.product_id item) productId)
                 items)).

(** ** Tables a handler leaves alone *)

Definition same_stock (db db' : database) : Prop :=
  inventory_items db' = inventory_items db
  /\ inventory_adjustments db' = inventory_adjustments db.

Definition same_waste (db db' : database) : Prop :=
  waste db' = waste db.

Definition same_transformations (db db' : database) : Prop :=
  transformations db' = transformations db
  /\ transformation_items db' = transformation_items db.

Definition same_purchases (db db' : database) : Prop :=
  purchase_invoices db' = purchase_invoices db
  /\ purchase_items db' = purchase_items db.

Definition same_audits (db db' : database) : Prop :=
  inventory_audits db' = inventory_audits db
  /\ inventory_audit_items db' = inventory_audit_items db.

(** One invoice, as the purchases page lists it. *)
Definition invoice_1 : PurchaseInvoice.t :=
  {| PurchaseInvoice.id := "invoice-1";
     PurchaseInvoice.invoice_number := "INV-000001-001";
     PurchaseInvoice.supplier := "supplier";
     PurchaseInvoice.branch_id := "B1";
     PurchaseInvoice.total_amount := of_frac 115 2;
     PurchaseInvoice.vat_amount := of_frac 15 2;
     PurchaseInvoice.created_by := Some "user-1"%string |}.

Definition one_purchase : database :=
  set_purchase_items
    [ {| PurchaseItem.purchase_invoice_id := "invoice-1";
         PurchaseItem.product_id := "P1";
         PurchaseItem.quantity := of_Z 10;
         PurchaseItem.unit_price := of_Z 5;
         PurchaseItem.vat_percentage := of_Z 15;
         PurchaseItem.total_price := of_frac 115 2 |} ]
    (set_purchase_invoices [invoice_1] empty_database).

(** ** The invoice total as the specification words it *)

(** [totalWithVat(qty*unitPrice, vatPct/100)] for one line of the invoice. *)
Definition lineTotalWithVat (item : AddPurchasePage.PurchaseItemFormValues) : number :=
  calculateTotalWithVAT
    (AddPurchasePage.quantity item * AddPurchasePage.unit_price item)%num
    (AddPurchasePage.vat_percentage item / of_Z 100)%num.

(** ** Rows before and after an update *)

(** What the manual adjustment does to one row of [inventory_items]. *)
Definition adjusted (id : string) (q : number) (now : string)
  (old new : InventoryItem.t) : Prop :=
  if String.eqb (InventoryItem.id old) id then
    InventoryItem.quantity new = q
    /\ InventoryItem.updated_at new = now
    /\ InventoryItem.id new = InventoryItem.id old
    /\ InventoryItem.product_id new = InventoryItem.product_id old
    /\ InventoryItem.branch_id new = InventoryItem.branch_id old
    /\ InventoryItem.average_cost new = InventoryItem.average_cost old
  else new = old.


(** The items of one audit, as the database holds them. *)
Definition items_of (auditId : string) (db : database) : list InventoryAuditItem.t :=
  filter (fun item => String.eqb (InventoryAuditItem.audit_id item) auditId)
         (inventory_audit_items db).

(** ** When loading an audit creates its items *)


(** ** A session on the audit page *)

(** The buttons and fields of the audit page, each with the answer the
    backend gives to the call it makes. *)
Inductive audit_action : Type :=
| Count (updateError : option string) (itemId : string) (value : number)
| Note (updateError : option string) (itemId value : string)
| Save (now : string) (user_id : option string) (updateError : option string)
| Cancel (confirmed : bool) (now : string) (user_id : option string)
         (updateError : option string)
| Complete (confirmed : bool) (now : string) (user_id : option string)
           (updateError : option string).

Definition perform (a : audit_action) (session : database * EditInventoryAuditPage.state)
  : database * EditInventoryAuditPage.state :=
  let '(db, st) := session in
  match a with
  | Count updateError itemId value =>
      fst (EditInventoryAuditPage.handleActualQuantityChange updateError itemId value st db)
  | Note updateError itemId value =>
      fst (EditInventoryAuditHandlers.handleItemNoteChange updateError itemId value st db)
  | Save now user_id updateError =>
      fst (EditInventoryAuditHandlers.handleSaveAudit now user_id updateError st db)
  | Cancel confirmed now user_id updateError =>
      (fst (EditInventoryAuditHandlers.handleCancelAudit confirmed now user_id
              updateError st db), st)
  | Complete confirmed now user_id updateError =>
      (fst (EditInventoryAuditPage.handleCompleteAudit confirmed now user_id
              updateError st db), st)
  end.

Definition session_after (actions : list audit_action)
  (session : database * EditInventoryAuditPage.state)
  : database * EditInventoryAuditPage.state :=
  fold_left (fun s a => perform a s) actions session.

(** What an audit item was created with. *)
Definition snapshot (item : InventoryAuditItem.t) : string * string * string * number :=
  (InventoryAuditItem.id item, InventoryAuditItem.audit_id item,
   InventoryAuditItem.product_id item, InventoryAuditItem.expected_quantity item).

(** The difference of an item is its count minus its expectation, and is
    not set before the item is counted. *)
Definition consistent (item : InventoryAuditItem.t) : Prop :=
  InventoryAuditItem.difference item
  = option_map (fun actual => (actual - InventoryAuditItem.expected_quantity item)%num)
               (InventoryAuditItem.actual_quantity item).

(** The page shows the items the database holds for its audit, ids are
    keys of the item table, and every item is consistent. *)
Definition counting_invariant (session : database * EditInventoryAuditPage.state) : Prop :=
  let '(db, st) := session in
  EditInventoryAuditPage.auditItems st = items_of (EditInventoryAuditPage.auditId st) db
  /\ NoDup (map InventoryAuditItem.id (inventory_audit_items db))
  /\ Forall consistent (inventory_audit_items db).

(** What a session on the audit page leaves as it was: the stock, the
    documents, the audits other than the page's, and, of every audit item,
    what it was created with. *)
Definition audit_frame (before after : database * EditInventoryAuditPage.state) : Prop :=
  let '(db, st) := before in
  let '(db', st') := after in
  EditInventoryAuditPage.auditId st' = EditInventoryAuditPage.auditId st
  /\ same_stock db db' /\ same_waste db db'
  /\ same_transformations db db' /\ same_purchases db db'
  /\ map snapshot (inventory_audit_items db') = map snapshot (inventory_audit_items db)
  /\ map InventoryAudit.id (inventory_audits db') = map InventoryAudit.id (inventory_audits db)
  /\ filter (fun row => negb (String.eqb (InventoryAudit.id row)
                                          (EditInventoryAuditPage.auditId st)))
            (inventory_audits db')
     = filter (fun row => negb (String.eqb (InventoryAudit.id row)
                                           (EditInventoryAuditPage.auditId st)))
              (inventory_audits db).

(** ** Scenarios *)

(** Scenario C: the ledger holds 5 units of P1 at B1 at average cost 10. *)
Definition scenario_C : database :=
  set_inventory_items
    [ {| InventoryItem.id := "item-1"%string;
         InventoryItem.product_id := "P1";
         InventoryItem.branch_id := "B1";
         InventoryItem.quantity := of_Z 5;
         InventoryItem.average_cost := of_Z 10;
         InventoryItem.updated_at := "2024-01-01T00:00:00.000Z" |} ]
    empty_database.

Definition waste_of_8 : AddWastePage.WasteFormValues :=
  {| AddWastePage.reference_number := "WASTE-000001";
     AddWastePage.branch_id := "B1";
     AddWastePage.product_id := "P1";
     AddWastePage.quantity := of_Z 8;
     AddWastePage.reason := "damage";
     AddWastePage.notes := None |}.

(** A branch B1 holding 10 units of P1 and 2 units of P3. *)
Definition stock_of_B1 : database :=
  set_inventory_items
    [ {| InventoryItem.id := "item-1";
         InventoryItem.product_id := "P1";
         InventoryItem.branch_id := "B1";
         InventoryItem.quantity := of_Z 10;
         InventoryItem.average_cost := of_Z 3;
         InventoryItem.updated_at := "2024-01-01T00:00:00.000Z" |};
      {| InventoryItem.id := "item-3";
         InventoryItem.product_id := "P3";
         InventoryItem.branch_id := "B1";
         InventoryItem.quantity := of_Z 2;
         InventoryItem.average_cost := of_Z 1;
         InventoryItem.updated_at := "2024-01-01T00:00:00.000Z" |} ]
    empty_database.

Definition source (productId : string) (qty costPerUnit : Z)
  : AddTransformationPage.TransformationItemFormValues :=
  {| AddTransformationPage.product_id := productId;
     AddTransformationPage.quantity := of_Z qty;
     AddTransformationPage.cost_per_unit := of_Z costPerUnit;
     AddTransformationPage.total_cost := of_Z (qty * costPerUnit) |}.

Definition transformation_of (sources : list AddTransformationPage.TransformationItemFormValues)
  : AddTransformationPage.TransformationFormValues :=
  {| AddTransformationPage.reference_number := "TRANS-000001";
     AddTransformationPage.branch_id := "B1";
     AddTransformationPage.target_product_id := "P2";
     AddTransformationPage.target_quantity := of_Z 1;
     AddTransformationPage.notes := None;
     AddTransformationPage.source_items := sources |}.

(** A form that lists P1 twice, 6 units each time. *)
Definition twice_six_of_P1 : AddTransformationPage.TransformationFormValues :=
  transformation_of [source "P1" 6 3; source "P1" 6 3].

(** A form that asks for 4 units of P1 and 5 units of P3. *)
Definition four_of_P1_five_of_P3 : AddTransformationPage.TransformationFormValues :=
  transformation_of [source "P1" 4 3; source "P3" 5 1].

(** Scenario A: one line of 10 units of P1 at 5.00 with 15% VAT, for B1. *)
Definition ten_of_P1_at_5 : AddPurchasePage.PurchaseInvoiceFormValues :=
  {| AddPurchasePage.invoice_number := "INV-000001-001";
     AddPurchasePage.supplier := "supplier";
     AddPurchasePage.branch_id := "B1";
     AddPurchasePage.items :=
       [ AddPurchasePage.calculateItemTotal
           {| AddPurchasePage.product_id := "P1";
              AddPurchasePage.quantity := of_Z 10;
              AddPurchasePage.unit_price := of_Z 5;
              AddPurchasePage.vat_percentage := of_Z 15;
              AddPurchasePage.total_price := zero |} ] |}.

(** A recount of item-1 to 7 units. *)
Definition adjust_to_7 : AdjustInventoryPage.AdjustInventoryFormValues :=
  {| AdjustInventoryPage.quantity := of_Z 7;
     AdjustInventoryPage.reason := "recount" |}.

(** Scenario E: B1 holds 15 units of P1; an audit of B1 is in progress
    with its one item not counted yet. *)
Definition scenario_E : database :=
  set_inventory_audit_items
    [ {| InventoryAuditItem.id := "audit-item-1";
         InventoryAuditItem.audit_id := "audit-1";
         InventoryAuditItem.product_id := "P1";
         InventoryAuditItem.expected_quantity := of_Z 15;
         InventoryAuditItem.actual_quantity := None;
         InventoryAuditItem.difference := None;
         InventoryAuditItem.notes := None |} ]
    (set_inventory_audits
       [ {| InventoryAudit.id := "audit-1";
            InventoryAudit.branch_id := "B1";
            InventoryAudit.status := in_progress;
            InventoryAudit.completed_at := None;
            InventoryAudit.completed_by := None;
            InventoryAudit.updated_at := None;
            InventoryAudit.updated_by := None |} ]
       (set_inventory_items
          [ {| InventoryItem.id := "item-1";
               InventoryItem.product_id := "P1";
               InventoryItem.branch_id := "B1";
               InventoryItem.quantity := of_Z 15;
               InventoryItem.average_cost := of_Z 3;
               InventoryItem.updated_at := "2023-12-01T00:00:00.000Z" |} ]
          empty_database)).

Definition editing_scenario_E : EditInventoryAuditPage.state :=
  {| EditInventoryAuditPage.auditId := "audit-1";
     EditInventoryAuditPage.audit := List.hd_error (inventory_audits scenario_E);
     EditInventoryAuditPage.auditItems := items_of "audit-1" scenario_E |}.



(** Scenario E again, with -5 typed as the count of P1. *)
Definition counted_below_zero : database * EditInventoryAuditPage.state * outcome :=
  EditInventoryAuditPage.handleActualQuantityChange None "audit-item-1" (of_Z (-5))
    editing_scenario_E scenario_E.



(** Scenario E at its start: B1 holds 15 units of P1 and an audit of B1
    has just been created. *)
Definition scenario_E_created : database :=
  set_inventory_audits
    [ {| InventoryAudit.id := "audit-1";
         InventoryAudit.branch_id := "B1";
         InventoryAudit.status := draft;
         InventoryAudit.completed_at := None;
         InventoryAudit.completed_by := None;
         InventoryAudit.updated_at := None;
         InventoryAudit.updated_by := None |} ]
    (set_inventory_items
       [ {| InventoryItem.id := "item-1";
            InventoryItem.product_id := "P1";
            InventoryItem.branch_id := "B1";
            InventoryItem.quantity := of_Z 15;
            InventoryItem.average_cost := of_Z 3;
            InventoryItem.updated_at := "2023-12-01T00:00:00.000Z" |} ]
       empty_database).

(** A backend that answers every call of the load without error and
    names the new items after their product. *)
Definition backend_accepts : EditInventoryAuditHandlers.answers :=
  {| EditInventoryAuditHandlers.auditError := None;
     EditInventoryAuditHandlers.singleError := "no rows";
     EditInventoryAuditHandlers.branchError := None;
     EditInventoryAuditHandlers.itemsError := None;
     EditInventoryAuditHandlers.inventoryError := None;
     EditInventoryAuditHandlers.insertAnswer :=
       inr (fun productId => String.append "audit-item-" productId);
     EditInventoryAuditHandlers.updateError := None |}.

(** ** Further notions and scenarios *)

(** The open audits of a table, by branch and day. *)
Definition open_audits (audits : list InventoryAuditRow.t) : list (string * string) :=
  map (fun row => (InventoryAuditRow.branch_id row, InventoryAuditRow.audit_date row))
      (filter (fun row => negb (AddInventoryAuditPage.is_cancelled
                                  (InventoryAuditRow.status row)))
              audits).

(** A table with a cancelled audit of B1 on 2024-03-01. *)
Definition one_cancelled_audit : list InventoryAuditRow.t :=
  [ {| InventoryAuditRow.id := "audit-0";
       InventoryAuditRow.reference_number := "AUDIT-000000";
       InventoryAuditRow.branch_id := "B1";
       InventoryAuditRow.audit_date := "2024-03-01";
       InventoryAuditRow.status := cancelled;
       InventoryAuditRow.notes := None;
       InventoryAuditRow.created_by := Some "user-1"%string |} ].

Definition audit_of_B1 : AddInventoryAuditPage.AuditFormValues :=
  {| AddInventoryAuditPage.reference_number := "AUDIT-000001";
     AddInventoryAuditPage.branch_id := "B1";
     AddInventoryAuditPage.audit_date := "2024-03-01";
     AddInventoryAuditPage.notes := None |}.



(** Scenario C when the page was opened: the ledger held 20 units of P1
    at B1, before 15 of them left. *)
Definition scenario_C_earlier : database :=
  set_inventory_items
    [ {| InventoryItem.id := "item-1"%string;
         InventoryItem.product_id := "P1";
         InventoryItem.branch_id := "B1";
         InventoryItem.quantity := of_Z 20;
         InventoryItem.average_cost := of_Z 10;
         InventoryItem.updated_at := "2023-12-31T00:00:00.000Z" |} ]
    empty_database.

(** The branch B1 earlier in the day, when it still held 8 units of P3. *)
Definition stock_of_B1_earlier : database :=
  set_inventory_items
    [ {| InventoryItem.id := "item-1";
         InventoryItem.product_id := "P1";
         InventoryItem.branch_id := "B1";
         InventoryItem.quantity := of_Z 10;
         InventoryItem.average_cost := of_Z 3;
         InventoryItem.updated_at := "2024-01-01T00:00:00.000Z" |};
      {| InventoryItem.id := "item-3";
         InventoryItem.product_id := "P3";
         InventoryItem.branch_id := "B1";
         InventoryItem.quantity := of_Z 8;
         InventoryItem.average_cost := of_Z 1;
         InventoryItem.updated_at := "2023-12-31T00:00:00.000Z" |} ]
    empty_database.

(** The branch B1 later, after 6 units of P1 have left. *)
Definition stock_of_B1_later : database :=
  set_inventory_items
    [ {| InventoryItem.id := "item-1";
         InventoryItem.product_id := "P1";
         InventoryItem.branch_id := "B1";
         InventoryItem.quantity := of_Z 4;
         InventoryItem.average_cost := of_Z 3;
         InventoryItem.updated_at := "2024-01-15T00:00:00.000Z" |};
      {| InventoryItem.id := "item-3";
         InventoryItem.product_id := "P3";
         InventoryItem.branch_id := "B1";
         InventoryItem.quantity := of_Z 2;
         InventoryItem.average_cost := of_Z 1;
         InventoryItem.updated_at := "2024-01-01T00:00:00.000Z" |} ]
    empty_database.

(** * Properties *)

(** ** Numbers

    The operations on numbers are the primitive ones; what is proved of
    them for every number goes through their IEEE 754 specification. *)

Section NumberFacts.

Lemma zero_spec : Prim2SF zero = S754_zero false.
Proof. reflexivity. Qed.

Lemma SFeqb_finite_refl (s : bool) (m : positive) (e : Z) :
  SFeqb (S754_finite s m e) (S754_finite s m e) = true.
Proof.
  unfold SFeqb, SFcompare. rewrite Z.compare_refl, Pos.compare_refl.
  destruct s; reflexivity.
Qed.


Lemma is_finite_spec (x : number) :
  is_finite x
  = match Prim2SF x with S754_nan | S754_infinity _ => false | _ => true end.
Proof.
  unfold is_finite, PrimFloat.is_finite, PrimFloat.is_nan, PrimFloat.is_infinity.
  rewrite !FloatAxioms.eqb_spec, abs_spec.
  change (Prim2SF infinity) with (S754_infinity false).
  destruct (Prim2SF x) as [s|s| |s m e]; try reflexivity.
  - destruct s; reflexivity.
  - cbn [SFabs]. now rewrite SFeqb_finite_refl.
Qed.


(** A quotient over 0 is [NaN] or an infinity, whatever is divided. *)
Lemma div_zero_not_finite (x : number) : is_finite (div x zero) = false.
Proof.
  rewrite is_finite_spec. unfold div. rewrite div_spec, zero_spec.
  destruct (Prim2SF x) as [s|s| |s m e]; reflexivity.
Qed.







End NumberFacts.

(** ** The cost blend *)

(** C2: for every input, calculateAverageCost returns the weighted mean
    (currentQuantity*currentAverageCost + newQuantity*newCost) /
    (currentQuantity + newQuantity), except that it returns 0 when
    currentQuantity and newQuantity are both 0. *)
Theorem calculateAverageCost_blend :
  forall currentQuantity currentAverageCost newQuantity newCost : number,
    blendAverageCost_spec currentQuantity currentAverageCost newQuantity newCost
      (calculateAverageCost currentQuantity currentAverageCost newQuantity newCost).
Proof.
  intros cq ca nq nc. unfold calculateAverageCost.
  destruct (strict_eq cq zero) eqn:Hc; cbn [andb].
  - destruct (strict_eq nq zero) eqn:Hn.
    + now apply blend_cold.
    + apply blend_mean. intros [_ H]. congruence.
  - apply blend_mean. intros [H _]. congruence.
Qed.

Section RoundTrip.

Local Open Scope number_scope.

(** With one quantity that is not 0 the guard is passed. *)
Lemma calculateAverageCost_quotient (cq ca nq nc : number) :
  (cq === zero) && (nq === zero) = false ->
  calculateAverageCost cq ca nq nc = (cq * ca + nq * nc) / (cq + nq).
Proof. intros H. unfold calculateAverageCost. now rewrite H. Qed.



End RoundTrip.



(** C10: calculateAverageCost only guards the case where both quantities
    are 0.  At currentQuantity = 5 and newQuantity = -5 the quantities sum
    to 0 without both being 0, the division by the total quantity is
    reached, and the result is NaN, Infinity or -Infinity depending on the
    costs: not a non-negative cost. *)
Theorem calculateAverageCost_division_unguarded :
  let currentQuantity := of_Z 5 in
  let newQuantity := of_Z (-5) in
  add currentQuantity newQuantity = zero
  /\ (strict_eq currentQuantity zero && strict_eq newQuantity zero = false)
  /\ calculateAverageCost currentQuantity (of_Z 1) newQuantity (of_Z 1) = NaN
  /\ calculateAverageCost currentQuantity (of_Z 2) newQuantity (of_Z 1) = PosInf
  /\ calculateAverageCost currentQuantity (of_Z 1) newQuantity (of_Z 2) = NegInf
  /\ (forall currentAverageCost newCost : number,
        is_finite (calculateAverageCost currentQuantity currentAverageCost
                     newQuantity newCost) = false).
Proof.
  cbv zeta. repeat split; try reflexivity.
  intros ca nc.
  rewrite calculateAverageCost_quotient by reflexivity.
  replace (add (of_Z 5) (of_Z (-5))) with zero by reflexivity.
  apply div_zero_not_finite.
Qed.

(** ** Stock checks of the pages *)

Section StockChecks.

Lemma nonempty_false (s : string) : nonempty s = false -> s = EmptyString.
Proof. destruct s; simpl; [reflexivity | discriminate]. Qed.

(** With a branch chosen, the quantity the waste page reads from its
    copy of the inventory is the ledger quantity of that copy. *)
Lemma waste_available_is_ledger_quantity inventory productId branchId :
  nonempty productId = true -> nonempty branchId = true ->
  AddWastePage.getAvailableInventory inventory productId branchId
  = StockLedger.quantity inventory productId branchId.
Proof.
  intros Hp Hb. unfold AddWastePage.getAvailableInventory, StockLedger.quantity.
  now rewrite Hp, Hb.
Qed.

Lemma transformation_available_is_ledger_quantity inventory branchId productId :
  nonempty branchId = true ->
  AddTransformationPage.getAvailableInventory inventory branchId productId
  = StockLedger.quantity inventory productId branchId.
Proof.
  intros Hb. unfold AddTransformationPage.getAvailableInventory, StockLedger.quantity.
  now rewrite Hb.
Qed.

Import AddTransformationPage.

Lemma firstShortage_None inventory branchId items :
  firstShortage inventory branchId items = None <->
  Forall (fun item =>
            gt (quantity item) (getAvailableInventory inventory branchId (product_id item))
            = false) items.
Proof.
  induction items as [|item rest IH]; simpl.
  - split; auto.
  - destruct (gt (quantity item) _) eqn:E.
    + split; [discriminate|]. inversion 1; congruence.
    + rewrite IH. split; [now constructor | now inversion 1].
Qed.

Lemma firstShortage_Some inventory branchId items :
  Exists (fun item =>
            gt (quantity item) (getAvailableInventory inventory branchId (product_id item))
            = true) items ->
  exists availableQuantity,
    firstShortage inventory branchId items = Some availableQuantity.
Proof.
  intros H. destruct (firstShortage inventory branchId items) eqn:E; eauto.
  apply firstShortage_None in E. apply Exists_exists in H as (item & Hin & Hgt).
  rewrite Forall_forall in E. specialize (E item Hin). congruence.
Qed.

(** A form the schema accepts names a branch. *)
Lemma transformationSchema_branch data :
  transformationSchema data = true -> nonempty (branch_id data) = true.
Proof.
  unfold transformationSchema. intros H.
  repeat (apply andb_prop in H as [H ?]). assumption.
Qed.

End StockChecks.

(** C6 (the code at the failing input): the waste page checks the
    quantity against the copy of the inventory it read when it was
    opened.  A waste above that copy is refused with InsufficientStock and
    nothing is written; a waste that is not above the copy is accepted
    even when it is above the quantity the ledger holds now: the waste
    row is stored and the page goes back to the list. *)
Theorem waste_check_reads_the_copy_of_the_page
  (inventory : list InventoryItem.t) (totalCost : number) (db : database)
  (user_id : option string) (data : AddWastePage.WasteFormValues) :
  AddWastePage.wasteSchema data = true ->
  let copy_quantity :=
    StockLedger.quantity inventory
      (AddWastePage.product_id data) (AddWastePage.branch_id data) in
  let ledger_quantity :=
    StockLedger.quantity (inventory_items db)
      (AddWastePage.product_id data) (AddWastePage.branch_id data) in
  (gt (AddWastePage.quantity data) copy_quantity = true ->
   forall wasteAnswer,
     AddWastePage.submit inventory totalCost user_id wasteAnswer data db
     = (db, Rejected (InsufficientStock copy_quantity)))
  /\ (gt (AddWastePage.quantity data) copy_quantity = false ->
      gt (AddWastePage.quantity data) ledger_quantity = true ->
      forall new_id,
        let result :=
          AddWastePage.submit inventory totalCost user_id (inr new_id) data db in
        snd result = Pushed "/dashboard/waste"
        /\ (exists row,
              waste (fst result) = waste db ++ [row]
              /\ Waste.id row = new_id
              /\ Waste.product_id row = AddWastePage.product_id data
              /\ Waste.branch_id row = AddWastePage.branch_id data
              /\ Waste.quantity row = AddWastePage.quantity data)
        /\ inventory_items (fst result) = inventory_items db).
Proof.
  intros Hschema copy_quantity ledger_quantity.
  assert (Havailable :
            AddWastePage.getAvailableInventory inventory
              (AddWastePage.product_id data) (AddWastePage.branch_id data)
            = copy_quantity).
  { unfold AddWastePage.wasteSchema in Hschema.
    repeat (apply andb_prop in Hschema as [Hschema ?]).
    now apply waste_available_is_ledger_quantity. }
  unfold AddWastePage.submit, handleSubmit. rewrite Hschema.
  unfold AddWastePage.onSubmit. rewrite Havailable. split.
  - intros Hgt wasteAnswer. now rewrite Hgt.
  - intros Hcopy _ new_id. rewrite Hcopy. cbn [fst snd].
    split; [reflexivity|]. split; [|reflexivity].
    eexists. split; [reflexivity|]. repeat split.
Qed.

(** Scenario C on a page that was opened when the ledger held 20 units:
    the ledger holds 5, the waste of 8 is stored. *)
Lemma waste_check_reads_the_copy_of_the_page_scenario_C :
  let inventory := AddWastePage.fetchData None None None scenario_C_earlier in
  let result :=
    AddWastePage.submit inventory (of_Z 80) (Some "user-1"%string)
      (inr "waste-1"%string) waste_of_8 scenario_C in
  StockLedger.quantity (inventory_items scenario_C) "P1" "B1" = of_Z 5
  /\ snd result = Pushed "/dashboard/waste"
  /\ map Waste.quantity (waste (fst result)) = [of_Z 8].
Proof.
  cbv zeta.
  destruct (@waste_check_reads_the_copy_of_the_page
              (AddWastePage.fetchData None None None scenario_C_earlier) (of_Z 80)
              scenario_C (Some "user-1"%string) waste_of_8 eq_refl) as [_ H].
  destruct (H eq_refl eq_refl "waste-1"%string) as (Hpush & (row & Hrows & _ & _ & _ & Hq) & _).
  split; [reflexivity|]. split; [exact Hpush|].
  rewrite Hrows. cbn [waste scenario_C set_inventory_items empty_database app map].
  now rewrite Hq.
Defined.

(** C5 (the code at the failing input): the transformation page checks
    every source item against the copy of the inventory it read when it
    was opened.  If one item is above that copy, the transformation is
    refused with InsufficientStock and nothing is written.  If none is,
    the transformation and its items are stored and the page goes back to
    the list, even when an item is above the quantity the ledger holds
    now. *)
Theorem transformation_check_reads_the_copy_of_the_page
  (inventory : list InventoryItem.t) (totalCost : number) (db : database)
  (user_id : option string)
  (data : AddTransformationPage.TransformationFormValues) :
  AddTransformationPage.transformationSchema data = true ->
  let copy_quantity item :=
    StockLedger.quantity inventory
      (AddTransformationPage.product_id item) (AddTransformationPage.branch_id data) in
  let ledger_quantity item :=
    StockLedger.quantity (inventory_items db)
      (AddTransformationPage.product_id item) (AddTransformationPage.branch_id data) in
  (Exists (fun item => gt (AddTransformationPage.quantity item) (copy_quantity item) = true)
          (AddTransformationPage.source_items data) ->
   forall transformationAnswer itemsError,
   exists available,
     AddTransformationPage.submit inventory totalCost user_id
       transformationAnswer itemsError data db
     = (db, Rejected (InsufficientStock available)))
  /\ (Forall (fun item => gt (AddTransformationPage.quantity item) (copy_quantity item) = false)
             (AddTransformationPage.source_items data) ->
      Exists (fun item => gt (AddTransformationPage.quantity item) (ledger_quantity item) = true)
             (AddTransformationPage.source_items data) ->
      forall new_id,
        let result :=
          AddTransformationPage.submit inventory totalCost user_id
            (inr new_id) None data db in
        snd result = Pushed "/dashboard/transformations"
        /\ map Transformation.id (transformations (fst result))
           = map Transformation.id (transformations db) ++ [new_id]
        /\ transformation_items (fst result)
           = transformation_items db
             ++ AddTransformationPage.transformationItems new_id
                  (AddTransformationPage.source_items data)
        /\ inventory_items (fst result) = inventory_items db).
Proof.
  intros Hschema copy_quantity ledger_quantity.
  pose proof (transformationSchema_branch _ Hschema) as Hb.
  assert (Hq : forall item,
             AddTransformationPage.getAvailableInventory inventory
               (AddTransformationPage.branch_id data)
               (AddTransformationPage.product_id item) = copy_quantity item).
  { intros item. now apply transformation_available_is_ledger_quantity. }
  unfold AddTransformationPage.submit, handleSubmit. rewrite Hschema.
  unfold AddTransformationPage.onSubmit. split.
  - intros Hex transformationAnswer itemsError.
    destruct (@firstShortage_Some inventory
                (AddTransformationPage.branch_id data)
                (AddTransformationPage.source_items data)) as [a Ha].
    { eapply Exists_impl; [|exact Hex]. intros item. cbv beta. now rewrite Hq. }
    rewrite Ha. now exists a.
  - intros Hall _ new_id.
    assert (Hnone : AddTransformationPage.firstShortage inventory
                      (AddTransformationPage.branch_id data)
                      (AddTransformationPage.source_items data) = None).
    { apply firstShortage_None. eapply Forall_impl; [|exact Hall].
      intros item. cbv beta. now rewrite Hq. }
    rewrite Hnone. cbn [fst snd]. split; [reflexivity|].
    cbn [transformations transformation_items inventory_items
         set_transformations set_transformation_items].
    rewrite map_app. repeat split.
Qed.

(** A page opened when B1 held 8 units of P3: the ledger holds 2, and the
    transformation that asks for 5 is stored. *)
Lemma transformation_check_reads_the_copy_of_the_page_witness :
  let inventory := AddTransformationPage.fetchData None None None stock_of_B1_earlier in
  let result :=
    AddTransformationPage.submit inventory (of_Z 17) (Some "user-1"%string)
      (inr "transformation-1"%string) None four_of_P1_five_of_P3 stock_of_B1 in
  StockLedger.quantity (inventory_items stock_of_B1) "P3" "B1" = of_Z 2
  /\ snd result = Pushed "/dashboard/transformations"
  /\ map TransformationItem.quantity (transformation_items (fst result))
     = [of_Z 4; of_Z 5].
Proof.
  cbv zeta.
  destruct (@transformation_check_reads_the_copy_of_the_page
              (AddTransformationPage.fetchData None None None stock_of_B1_earlier)
              (of_Z 17) stock_of_B1 (Some "user-1"%string) four_of_P1_five_of_P3 eq_refl)
    as [_ H].
  destruct (H ltac:(repeat constructor)
              ltac:(apply Exists_cons_tl, Exists_cons_hd; reflexivity)
              "transformation-1"%string) as (Hpush & _ & Hitems & _).
  split; [reflexivity|]. split; [exact Hpush|].
  rewrite Hitems. reflexivity.
Defined.

(** C1 (the code at the failing input): the ledger holds 10 units of P1 at
    B1 and the form lists P1 twice with 6 units each.  The schema accepts
    the form, each item alone passes the availability check, and together
    they ask for 12 units; onSubmit does not reject: it stores the
    transformation and both items and goes back to the list. *)
Theorem transformation_listing_a_product_twice_is_accepted (totalCost : number) :
  let data := twice_six_of_P1 in
  let ledger_quantity := StockLedger.quantity (inventory_items stock_of_B1) "P1" "B1" in
  let result :=
    AddTransformationPage.submit
      (AddTransformationPage.fetchData None None None stock_of_B1) totalCost
      (Some "user-1"%string) (inr "transformation-1"%string) None data stock_of_B1 in
  AddTransformationPage.transformationSchema data = true
  /\ ledger_quantity = of_Z 10
  /\ Forall (fun item => gt (AddTransformationPage.quantity item) ledger_quantity = false)
            (AddTransformationPage.source_items data)
  /\ requested "P1" (AddTransformationPage.source_items data) = of_Z 12
  /\ gt (requested "P1" (AddTransformationPage.source_items data)) ledger_quantity = true
  /\ snd result = Pushed "/dashboard/transformations"
  /\ map Transformation.id (transformations (fst result)) = ["transformation-1"%string]
  /\ transformation_items (fst result)
     = AddTransformationPage.transformationItems "transformation-1"
         (AddTransformationPage.source_items data)
  /\ inventory_items (fst result) = inventory_items stock_of_B1.
Proof.
  cbv zeta. repeat split; try reflexivity; repeat constructor.
Qed.

(** The transformation the page has just stored cannot be taken out of
    the ledger: the first 6 units leave 4, and the ledger refuses the
    second 6. *)
Lemma transformation_listing_a_product_twice_overdraws :
  forall (item_id : string -> string -> string) (now : string),
    exists rows,
      StockLedger.applyNegativeMovement item_id now "P1" "B1" (of_Z 6)
        (inventory_items stock_of_B1) = inr rows
      /\ StockLedger.quantity rows "P1" "B1" = of_Z 4
      /\ StockLedger.applyNegativeMovement item_id now "P1" "B1" (of_Z 6) rows
         = inl StockLedger.InsufficientStock.
Proof.
  intros item_id now. eexists. split; [reflexivity|].
  split; reflexivity.
Qed.

(** The count of an audit item is taken as typed: the handler stores a
    negative count, the audit completes, and the reconciliation writes the
    negative count in the ledger. *)
Lemma audit_count_below_zero_reaches_the_ledger :
  let db1 := fst (fst counted_below_zero) in
  let st1 := snd (fst counted_below_zero) in
  let result :=
    EditInventoryAuditPage.handleCompleteAudit true "2024-01-01T18:00:00.000Z"
      (Some "user-1"%string) None st1 db1 in
  snd counted_below_zero = Stayed
  /\ snd result = Pushed "/dashboard/inventory-audits"
  /\ forall item_id,
       lt (StockLedger.quantity
             (fst (StockLedger.reconcile item_id "B1" (items_of "audit-1" (fst result))
                     (inventory_items (fst result), inventory_adjustments (fst result))))
             "P1" "B1")
          zero = true.
Proof.
  cbv zeta. split; [reflexivity|]. split; [reflexivity|]. intros item_id. reflexivity.
Qed.

(** ** Manual adjustment *)

Section ManualAdjustment.

Import AdjustInventoryPage.

Lemma single_Some {A : Type} (rows : list A) (row : A) :
  single rows = Some row -> rows = [row].
Proof. destruct rows as [|r [|? ?]]; simpl; congruence. Qed.

(** An entry the page holds after the load is the one row of the table
    that had the id of the route. *)
Lemma fetchInventoryItem_found id itemError productError db entry :
  inventoryItem (fetchInventoryItem id itemError productError db) = Some entry ->
  In entry (inventory_items db) /\ InventoryItem.id entry = id
  /\ itemError = None /\ productError = None.
Proof.
  cbn [inventoryItem fetchInventoryItem].
  destruct (negb (nonempty id)); [discriminate|].
  destruct itemError; [discriminate|].
  destruct (single _) as [itemData|] eqn:H; [|discriminate].
  destruct productError; [discriminate|].
  intros E. injection E as <-. apply single_Some in H.
  assert (Hin : In itemData (filter (fun row => String.eqb (InventoryItem.id row) id)
                                    (inventory_items db)))
    by (rewrite H; now left).
  apply filter_In in Hin as [Hin Hid]. repeat split; [assumption|].
  now apply String.eqb_eq.
Qed.

Lemma update_quantity_adjusted id q now rows :
  Forall2 (adjusted id q now) rows (map (update_quantity id q now) rows).
Proof.
  induction rows as [|row rest IH]; simpl; constructor; [|exact IH].
  unfold adjusted, update_quantity.
  destruct (String.eqb (InventoryItem.id row) id); simpl; auto 10.
Qed.

End ManualAdjustment.

(** C9 (the code at the failing input): a manual adjustment replaces the
    quantity of the rows with the id of the route by the value of the form
    and sets their updated_at; average_cost, the keys and every other row
    and table stay as they were.  The adjustment record it stores holds,
    as previous quantity, the quantity of the entry the page read when it
    was opened: when the row has changed since, the record does not hold
    the quantity that was replaced. *)
Theorem manual_adjustment_records_the_quantity_read_at_opening
  (st : AdjustInventoryPage.state) (db : database) (now : string)
  (data : AdjustInventoryPage.AdjustInventoryFormValues) (entry : InventoryItem.t) :
  AdjustInventoryPage.inventoryItem st = Some entry ->
  AdjustInventoryPage.adjustInventorySchema data = true ->
  let id := AdjustInventoryPage.inventoryItemId st in
  let result := AdjustInventoryPage.submit st now None None data db in
  snd result = Pushed "/dashboard/inventory"
  /\ Forall2 (adjusted id (AdjustInventoryPage.quantity data) now)
             (inventory_items db) (inventory_items (fst result))
  /\ inventory_adjustments (fst result)
     = inventory_adjustments db ++
         [ {| InventoryAdjustment.inventory_item_id := id;
              InventoryAdjustment.previous_quantity := InventoryItem.quantity entry;
              InventoryAdjustment.new_quantity := AdjustInventoryPage.quantity data;
              InventoryAdjustment.reason := AdjustInventoryPage.reason data |} ]
  /\ same_waste db (fst result) /\ same_transformations db (fst result)
  /\ same_purchases db (fst result) /\ same_audits db (fst result)
  /\ (forall row,
        In row (inventory_items db) -> InventoryItem.id row = id ->
        strict_eq (InventoryItem.quantity entry) (InventoryItem.quantity row) = false ->
        exists adjustment,
          inventory_adjustments (fst result) = inventory_adjustments db ++ [adjustment]
          /\ strict_eq (InventoryAdjustment.previous_quantity adjustment)
                       (InventoryItem.quantity row) = false).
Proof.
  intros Hentry Hschema id result.
  subst result. unfold AdjustInventoryPage.submit, handleSubmit.
  rewrite Hschema. unfold AdjustInventoryPage.onSubmit. rewrite Hentry.
  cbn [fst snd inventory_items inventory_adjustments
       set_inventory_items set_inventory_adjustments].
  split; [reflexivity|]. split; [apply update_quantity_adjusted|].
  split; [reflexivity|].
  split; [reflexivity|]. split; [split; reflexivity|].
  split; [split; reflexivity|]. split; [split; reflexivity|].
  intros row Hin Hid Hchanged. eexists. split; [reflexivity|]. exact Hchanged.
Qed.

(** A page opened when B1 held 10 units of P1, submitted after 6 of them
    have left: the ledger goes from 4 to 7, the record says from 10 to 7. *)
Lemma manual_adjustment_records_the_quantity_read_at_opening_witness :
  let st := AdjustInventoryPage.fetchInventoryItem "item-1" None None stock_of_B1 in
  let result :=
    AdjustInventoryPage.submit st "2024-02-01T00:00:00.000Z" None None adjust_to_7
      stock_of_B1_later in
  map InventoryItem.quantity (inventory_items stock_of_B1_later) = [of_Z 4; of_Z 2]
  /\ map InventoryItem.quantity (inventory_items (fst result)) = [of_Z 7; of_Z 2]
  /\ inventory_adjustments (fst result)
     = [ {| InventoryAdjustment.inventory_item_id := "item-1";
            InventoryAdjustment.previous_quantity := of_Z 10;
            InventoryAdjustment.new_quantity := of_Z 7;
            InventoryAdjustment.reason := "recount" |} ].
Proof.
  cbv zeta.
  pose proof (@manual_adjustment_records_the_quantity_read_at_opening
                (AdjustInventoryPage.fetchInventoryItem "item-1" None None stock_of_B1)
                stock_of_B1_later "2024-02-01T00:00:00.000Z" adjust_to_7 _
                eq_refl eq_refl) as H.
  cbv zeta in H. destruct H as (_ & _ & Hadj & _).
  split; [reflexivity|]. split; [reflexivity|]. exact Hadj.
Defined.

(** ** Deleting a document *)

Section Deleting.

Lemma In_filter_not_id {A : Type} (key : A -> string) (id : string) (rows : list A) (row : A) :
  In row (filter (fun r => negb (String.eqb (key r) id)) rows)
  <-> In row rows /\ key row <> id.
Proof.
  rewrite filter_In. split; intros [Hin H]; split; try assumption.
  - intros E. apply String.eqb_eq in E. rewrite E in H. discriminate.
  - apply negb_true_iff. now apply String.eqb_neq.
Qed.

End Deleting.

(** C7 (as stated, refuted): deleting a purchase invoice keeps the
    historical record and writes the inverse movement.  After the delete
    button has run on the only invoice, the invoice is no longer in its
    table, and no table has received any row. *)
Lemma delete_purchase_erases_the_record :
  let '(db', shown, _) :=
    PurchasesPage.handleDeletePurchase true None "invoice-1"
      (purchase_invoices one_purchase) one_purchase in
  In invoice_1 (purchase_invoices one_purchase)
  /\ ~ In invoice_1 (purchase_invoices db')
  /\ purchase_invoices db' = []
  /\ inventory_adjustments db' = []
  /\ purchase_items db' = purchase_items one_purchase
  /\ shown = [].
Proof.
  simpl. repeat split; auto.
Qed.

(** C7 (amended): once confirmed and accepted by the backend, deleting a
    purchase invoice, a transformation or a waste record removes the rows
    with that id from its table and from the list shown, and nothing else:
    every other row and every other table is as before, so the handler
    writes no inverse movement and the record does not survive. *)
Theorem delete_removes_the_row (db : database) (id : string) :
  (forall shown,
     let '(db', shown', result) :=
       PurchasesPage.handleDeletePurchase true None id shown db in
     result = Stayed
     /\ (forall row, In row (purchase_invoices db')
                     <-> In row (purchase_invoices db) /\ PurchaseInvoice.id row <> id)
     /\ (forall row, In row shown' <-> In row shown /\ PurchaseInvoice.id row <> id)
     /\ purchase_items db' = purchase_items db
     /\ same_stock db db' /\ same_waste db db'
     /\ same_transformations db db' /\ same_audits db db')
  /\ (forall shown,
        let '(db', shown', result) :=
          TransformationsPage.handleDeleteTransformation true None id shown db in
        result = Stayed
        /\ (forall row, In row (transformations db')
                        <-> In row (transformations db) /\ Transformation.id row <> id)
        /\ (forall row, In row shown' <-> In row shown /\ Transformation.id row <> id)
        /\ transformation_items db' = transformation_items db
        /\ same_stock db db' /\ same_waste db db'
        /\ same_purchases db db' /\ same_audits db db')
  /\ (forall shown,
        let '(db', shown', result) :=
          WastePage.handleDeleteWaste true None id shown db in
        result = Stayed
        /\ (forall row, In row (waste db') <-> In row (waste db) /\ Waste.id row <> id)
        /\ (forall row, In row shown' <-> In row shown /\ Waste.id row <> id)
        /\ same_stock db db' /\ same_transformations db db'
        /\ same_purchases db db' /\ same_audits db db').
Proof.
  unfold same_stock, same_waste, same_transformations, same_purchases, same_audits.
  repeat match goal with
         | |- _ /\ _ => split
         | |- forall _, _ => intro
         | |- _ <-> _ => apply In_filter_not_id
         | |- _ = _ => reflexivity
         | |- _ => progress cbv beta iota delta
                     [PurchasesPage.handleDeletePurchase
                        TransformationsPage.handleDeleteTransformation
                        WastePage.handleDeleteWaste negb]
         end.
Qed.

(** ** Purchases *)

(** C4 (the code at the failing input): the invoice is stored with the
    total the page holds in its state, whatever the lines of the form
    are.  The state is what the effect computed when it last ran: 0 for
    the row the form starts with.  A form filled in with Scenario A (10
    units of P1 at 5.00 with 15% VAT), whose lines add up to 57.50 and
    are stored with that total, is stored with an invoice total of 0 when
    the effect has not run since; 57.50 is stored only if it has run on
    these lines. *)
Theorem purchase_invoice_total_is_the_state_of_the_page :
  (forall (totalAmount totalVAT : number) (user_id : option string) (new_id : string)
          (itemsError : option string)
          (data : AddPurchasePage.PurchaseInvoiceFormValues) (db : database),
     exists invoice,
       purchase_invoices
         (fst (AddPurchasePage.onSubmit totalAmount totalVAT user_id (inr new_id)
                 itemsError data db))
       = purchase_invoices db ++ [invoice]
       /\ PurchaseInvoice.id invoice = new_id
       /\ PurchaseInvoice.total_amount invoice = totalAmount
       /\ PurchaseInvoice.vat_amount invoice = totalVAT)
  /\ AddPurchasePage.totalsEffect AddPurchasePage.defaultItems = (zero, zero)
  /\ AddPurchasePage.totalsEffect (AddPurchasePage.items ten_of_P1_at_5)
     = (of_frac 5750 100, of_frac 750 100)
  /\ sum (map lineTotalWithVat (AddPurchasePage.items ten_of_P1_at_5)) = of_frac 5750 100
  /\ (let result :=
        AddPurchasePage.submit zero zero (Some "user-1"%string)
          (inr "invoice-1"%string) None ten_of_P1_at_5 empty_database in
      snd result = Pushed "/dashboard/purchases"
      /\ map PurchaseInvoice.total_amount (purchase_invoices (fst result)) = [zero]
      /\ map PurchaseItem.total_price (purchase_items (fst result)) = [of_frac 5750 100]
      /\ strict_eq zero (of_frac 5750 100) = false).
Proof.
  split.
  - intros totalAmount totalVAT user_id new_id itemsError data db.
    unfold AddPurchasePage.onSubmit. eexists.
    destruct itemsError; cbn [fst purchase_invoices set_purchase_invoices set_purchase_items];
      (split; [reflexivity|]); repeat split.
  - cbv zeta. repeat split; reflexivity.
Qed.

(** The ledger side of Scenario A, which the database does by a trigger:
    the movements of the lines stored leave the ledger with the single
    entry (P1, B1) at quantity 10 and average cost 5.00. *)
Lemma purchase_scenario_A_ledger :
  forall (item_id : string -> string -> string) (now : string),
    let result :=
      AddPurchasePage.submit zero zero (Some "user-1"%string)
        (inr "invoice-1"%string) None ten_of_P1_at_5 empty_database in
    StockLedger.receive item_id now "B1"
      (purchase_items (fst result)) (inventory_items (fst result))
    = inr [ {| InventoryItem.id := item_id "P1"%string "B1"%string;
               InventoryItem.product_id := "P1";
               InventoryItem.branch_id := "B1";
               InventoryItem.quantity := of_Z 10;
               InventoryItem.average_cost := of_Z 5;
               InventoryItem.updated_at := now |} ].
Proof. intros item_id now. reflexivity. Qed.
(** ** Completing an audit *)

Section Reconciliation.

Variable item_id : string -> string -> string.














End Reconciliation.

Section Completing.

Import EditInventoryAuditPage.




End Completing.



(** * Further properties of the code *)

(** ** What the waste page stores *)

(** X5: whatever the form, the page's copy of the inventory and the
    answer of the backend, submitting a waste writes nothing but the waste
    table, and adds at most one row to it, of a quantity that is at least
    0.01 and not above the quantity the page reads for the product. *)
Theorem waste_submit_is_bounded
  (inventory : list InventoryItem.t) (totalCost : number) (user_id : option string)
  (wasteAnswer : inserted) (data : AddWastePage.WasteFormValues) (db : database) :
  let db' := fst (AddWastePage.submit inventory totalCost user_id wasteAnswer data db) in
  same_stock db db' /\ same_transformations db db'
  /\ same_purchases db db' /\ same_audits db db'
  /\ (waste db' = waste db
      \/ exists row,
           waste db' = waste db ++ [row]
           /\ ge (Waste.quantity row) (of_frac 1 100) = true
           /\ gt (Waste.quantity row)
                 (AddWastePage.getAvailableInventory inventory
                    (Waste.product_id row) (Waste.branch_id row)) = false).
Proof.
  unfold AddWastePage.submit, handleSubmit.
  destruct (AddWastePage.wasteSchema data) eqn:Hschema;
    [|cbn; repeat split; now left].
  unfold AddWastePage.onSubmit.
  destruct (gt (AddWastePage.quantity data) _) eqn:Hgt;
    [cbn; repeat split; now left|].
  destruct wasteAnswer as [message|new_id]; [cbn; repeat split; now left|].
  cbn [fst]. repeat split. right. eexists. split; [reflexivity|].
  cbn [Waste.quantity Waste.product_id Waste.branch_id]. split; [|exact Hgt].
  unfold AddWastePage.wasteSchema in Hschema.
  repeat (apply andb_prop in Hschema as [Hschema ?]). assumption.
Qed.

(** ** Writes that are made in two steps *)

(** X8: the pages write a document in two calls and do not undo the first
    when the second fails.  If the backend refuses the purchase items the
    invoice stays stored without lines; if it refuses the transformation
    items the transformation stays stored without source items; if it
    refuses the update of the quantity the adjustment record stays stored
    while the ledger row is unchanged.  Each time the page shows the
    error of the backend. *)
Theorem second_write_failure_keeps_the_first (db : database) (message : string) :
  (forall totalAmount totalVAT user_id new_id data,
     let result :=
       AddPurchasePage.onSubmit totalAmount totalVAT user_id (inr new_id)
         (Some message) data db in
     snd result = Rejected (BackendError message)
     /\ map PurchaseInvoice.id (purchase_invoices (fst result))
        = map PurchaseInvoice.id (purchase_invoices db) ++ [new_id]
     /\ purchase_items (fst result) = purchase_items db)
  /\ (forall inventory totalCost user_id new_id data,
        AddTransformationPage.firstShortage inventory
          (AddTransformationPage.branch_id data)
          (AddTransformationPage.source_items data) = None ->
        let result :=
          AddTransformationPage.onSubmit inventory totalCost user_id (inr new_id)
            (Some message) data db in
        snd result = Rejected (BackendError message)
        /\ map Transformation.id (transformations (fst result))
           = map Transformation.id (transformations db) ++ [new_id]
        /\ transformation_items (fst result) = transformation_items db)
  /\ (forall st now data item,
        AdjustInventoryPage.inventoryItem st = Some item ->
        let result :=
          AdjustInventoryPage.onSubmit st now None (Some message) data db in
        snd result = Rejected (BackendError message)
        /\ List.length (inventory_adjustments (fst result))
           = S (List.length (inventory_adjustments db))
        /\ inventory_items (fst result) = inventory_items db).
Proof.
  split; [|split].
  - intros totalAmount totalVAT user_id new_id data. cbn. rewrite map_app. repeat split.
  - intros inventory totalCost user_id new_id data Hnone.
    unfold AddTransformationPage.onSubmit. rewrite Hnone. cbn.
    rewrite map_app. repeat split.
  - intros st now data item Hitem.
    unfold AdjustInventoryPage.onSubmit. rewrite Hitem. cbn.
    rewrite length_app. cbn. rewrite Nat.add_1_r. repeat split.
Qed.

(** X9: whatever the form and the answers of the backend, submitting a
    purchase writes only the two purchase tables; it adds at most one
    invoice, and every purchase item it adds belongs to that invoice and
    has a quantity and a unit price of at least 0.01 and a VAT percentage
    between 0 and 100. *)
Theorem purchase_submit_is_bounded
  (totalAmount totalVAT : number)
  (user_id : option string) (invoiceAnswer : inserted) (itemsError : option string)
  (data : AddPurchasePage.PurchaseInvoiceFormValues) (db : database) :
  let db' :=
    fst (AddPurchasePage.submit totalAmount totalVAT user_id invoiceAnswer itemsError
           data db) in
  same_stock db db' /\ same_waste db db'
  /\ same_transformations db db' /\ same_audits db db'
  /\ ((purchase_invoices db' = purchase_invoices db
       /\ purchase_items db' = purchase_items db)
      \/ exists invoice stored,
           purchase_invoices db' = purchase_invoices db ++ [invoice]
           /\ purchase_items db' = purchase_items db ++ stored
           /\ Forall (fun item =>
                        PurchaseItem.purchase_invoice_id item = PurchaseInvoice.id invoice
                        /\ ge (PurchaseItem.quantity item) (of_frac 1 100) = true
                        /\ ge (PurchaseItem.unit_price item) (of_frac 1 100) = true
                        /\ ge (PurchaseItem.vat_percentage item) zero = true
                        /\ le (PurchaseItem.vat_percentage item) (of_Z 100) = true)
                     stored).
Proof.
  unfold AddPurchasePage.submit, handleSubmit.
  destruct (AddPurchasePage.purchaseInvoiceSchema data) eqn:Hschema;
    [|cbn; repeat split; left; split; reflexivity].
  unfold AddPurchasePage.onSubmit.
  destruct invoiceAnswer as [message|new_id];
    [cbn; repeat split; left; split; reflexivity|].
  destruct itemsError as [message|]; cbn [fst].
  - repeat split. right. eexists. exists []. split; [reflexivity|].
    split; [cbn; now rewrite app_nil_r | constructor].
  - repeat split. right. eexists. eexists. split; [reflexivity|].
    split; [reflexivity|].
    unfold AddPurchasePage.purchaseInvoiceSchema in Hschema.
    apply andb_prop in Hschema as [Hschema _].
    apply andb_prop in Hschema as [_ Hall].
    rewrite forallb_forall in Hall.
    unfold AddPurchasePage.purchaseItems. apply Forall_forall.
    intros item Hin. apply in_map_iff in Hin as (line & <- & Hline).
    specialize (Hall line Hline). unfold AddPurchasePage.purchaseItemSchema in Hall.
    repeat (apply andb_prop in Hall as [Hall ?]).
    cbn. repeat split; assumption.
Qed.

(** ** Manual adjustment, again *)

Section AdjustmentEdges.

Lemma filter_none {A : Type} (keep : A -> bool) (rows : list A) :
  (forall row, In row rows -> keep row = false) -> filter keep rows = [].
Proof.
  induction rows as [|row rest IH]; intros H; [reflexivity|].
  simpl. rewrite (H row (or_introl eq_refl)). apply IH.
  intros r Hr. apply H. now right.
Qed.

Lemma update_quantity_non_negative id q now rows :
  ge q zero = true ->
  Forall (fun row => ge (InventoryItem.quantity row) zero = true) rows ->
  Forall (fun row => ge (InventoryItem.quantity row) zero = true)
         (map (AdjustInventoryPage.update_quantity id q now) rows).
Proof.
  intros Hq. induction 1 as [|row rest Hrow _ IH]; constructor; [|exact IH].
  unfold AdjustInventoryPage.update_quantity.
  destruct (String.eqb (InventoryItem.id row) id); [exact Hq|exact Hrow].
Qed.

End AdjustmentEdges.

(** X11: when no row of inventory_items has the id of the route, the page
    loads no entry and submitting does nothing at all: no adjustment is
    recorded and no row is updated, whatever the form and the backend. *)
Theorem manual_adjustment_of_a_missing_row
  (db : database) (id now : string)
  (itemError productError adjustmentError updateError : option string)
  (data : AdjustInventoryPage.AdjustInventoryFormValues) :
  (forall row, In row (inventory_items db) -> InventoryItem.id row <> id) ->
  AdjustInventoryPage.inventoryItem
    (AdjustInventoryPage.fetchInventoryItem id itemError productError db) = None
  /\ AdjustInventoryPage.submit
       (AdjustInventoryPage.fetchInventoryItem id itemError productError db)
       now adjustmentError updateError data db
     = (db, Ignored).
Proof.
  intros Hmissing.
  assert (Hnone : AdjustInventoryPage.inventoryItem
                    (AdjustInventoryPage.fetchInventoryItem id itemError productError db)
                  = None).
  { cbn [AdjustInventoryPage.inventoryItem AdjustInventoryPage.fetchInventoryItem].
    rewrite filter_none.
    - destruct (negb (nonempty id)); [reflexivity|]. now destruct itemError.
    - intros row Hin. apply String.eqb_neq. now apply Hmissing. }
  split; [exact Hnone|].
  unfold AdjustInventoryPage.submit, handleSubmit.
  destruct (AdjustInventoryPage.adjustInventorySchema data); [|reflexivity].
  unfold AdjustInventoryPage.onSubmit. now rewrite Hnone.
Qed.

Lemma manual_adjustment_of_a_missing_row_witness :
  AdjustInventoryPage.inventoryItem
    (AdjustInventoryPage.fetchInventoryItem "item-9" None None stock_of_B1) = None
  /\ AdjustInventoryPage.submit
       (AdjustInventoryPage.fetchInventoryItem "item-9" None None stock_of_B1)
       "2024-02-01T00:00:00.000Z" None None adjust_to_7 stock_of_B1
     = (stock_of_B1, Ignored).
Proof.
  apply (@manual_adjustment_of_a_missing_row stock_of_B1 "item-9"
           "2024-02-01T00:00:00.000Z" None None None None adjust_to_7).
  intros row [<-|[<-|[]]]; discriminate.
Defined.

(** X12: a manual adjustment cannot make a quantity negative: if no row
    of inventory_items is below 0 before the form is submitted, none is
    afterwards, whatever the page had loaded, the form and the answers of
    the backend (the schema turns away negative quantities and NaN). *)
Theorem manual_adjustment_keeps_quantities_non_negative
  (st : AdjustInventoryPage.state) (now : string)
  (adjustmentError updateError : option string)
  (data : AdjustInventoryPage.AdjustInventoryFormValues) (db : database) :
  Forall (fun row => ge (InventoryItem.quantity row) zero = true) (inventory_items db) ->
  Forall (fun row => ge (InventoryItem.quantity row) zero = true)
         (inventory_items
            (fst (AdjustInventoryPage.submit st now adjustmentError updateError data db))).
Proof.
  intros Hdb. unfold AdjustInventoryPage.submit, handleSubmit.
  destruct (AdjustInventoryPage.adjustInventorySchema data) eqn:Hschema; [|exact Hdb].
  unfold AdjustInventoryPage.adjustInventorySchema in Hschema.
  apply andb_prop in Hschema as [Hq _].
  unfold AdjustInventoryPage.onSubmit.
  destruct (AdjustInventoryPage.inventoryItem st); [|exact Hdb].
  destruct adjustmentError; [exact Hdb|].
  destruct updateError; [exact Hdb|].
  cbn [fst inventory_items set_inventory_items set_inventory_adjustments].
  now apply update_quantity_non_negative.
Qed.

Lemma manual_adjustment_keeps_quantities_non_negative_witness :
  Forall (fun row => ge (InventoryItem.quantity row) zero = true)
         (inventory_items
            (fst (AdjustInventoryPage.submit
                    (AdjustInventoryPage.fetchInventoryItem "item-1" None None stock_of_B1)
                    "2024-02-01T00:00:00.000Z" None None adjust_to_7 stock_of_B1))).
Proof.
  apply (@manual_adjustment_keeps_quantities_non_negative
           (AdjustInventoryPage.fetchInventoryItem "item-1" None None stock_of_B1)
           "2024-02-01T00:00:00.000Z" None None adjust_to_7 stock_of_B1).
  repeat constructor.
Defined.

(** ** Deleting a document, again *)

Section DeletingTwice.

Lemma filter_twice {A : Type} (keep : A -> bool) (rows : list A) :
  filter keep (filter keep rows) = filter keep rows.
Proof.
  induction rows as [|row rest IH]; [reflexivity|].
  simpl. destruct (keep row) eqn:K; [|exact IH]. simpl. now rewrite K, IH.
Qed.

End DeletingTwice.

(** X13: the delete buttons do nothing when the user declines or the
    backend refuses (the database and the list shown are exactly as
    before), and deleting is idempotent: after a delete that went
    through, deleting the same id again leaves the database and the list
    as they are. *)
Theorem delete_declined_or_repeated (db : database) (id : string) :
  (forall confirmed deleteError message shown,
     PurchasesPage.handleDeletePurchase false deleteError id shown db
     = (db, shown, Ignored)
     /\ PurchasesPage.handleDeletePurchase confirmed (Some message) id shown db
        = (db, shown, if confirmed then Rejected (BackendError message) else Ignored))
  /\ (forall confirmed deleteError message shown,
        TransformationsPage.handleDeleteTransformation false deleteError id shown db
        = (db, shown, Ignored)
        /\ TransformationsPage.handleDeleteTransformation confirmed (Some message) id shown db
           = (db, shown, if confirmed then Rejected (BackendError message) else Ignored))
  /\ (forall confirmed deleteError message shown,
        WastePage.handleDeleteWaste false deleteError id shown db = (db, shown, Ignored)
        /\ WastePage.handleDeleteWaste confirmed (Some message) id shown db
           = (db, shown, if confirmed then Rejected (BackendError message) else Ignored))
  /\ (forall shown,
        let '(db1, shown1, _) := PurchasesPage.handleDeletePurchase true None id shown db in
        PurchasesPage.handleDeletePurchase true None id shown1 db1 = (db1, shown1, Stayed))
  /\ (forall shown,
        let '(db1, shown1, _) :=
          TransformationsPage.handleDeleteTransformation true None id shown db in
        TransformationsPage.handleDeleteTransformation true None id shown1 db1
        = (db1, shown1, Stayed))
  /\ (forall shown,
        let '(db1, shown1, _) := WastePage.handleDeleteWaste true None id shown db in
        WastePage.handleDeleteWaste true None id shown1 db1 = (db1, shown1, Stayed)).
Proof.
  repeat match goal with |- _ /\ _ => split end.
  - intros confirmed deleteError message shown. destruct confirmed; repeat split.
  - intros confirmed deleteError message shown. destruct confirmed; repeat split.
  - intros confirmed deleteError message shown. destruct confirmed; repeat split.
  - intros shown. cbn. now rewrite !filter_twice.
  - intros shown. cbn. now rewrite !filter_twice.
  - intros shown. cbn. now rewrite !filter_twice.
Qed.

(** ** Loading an audit *)

Section LoadingAudit.

Import EditInventoryAuditPage EditInventoryAuditHandlers.

Lemma filter_map_same_key {A : Type} (key : A -> string) (f : A -> A) (id : string)
  (rows : list A) :
  (forall row, key (f row) = key row) ->
  filter (fun row => String.eqb (key row) id) (map f rows)
  = map f (filter (fun row => String.eqb (key row) id) rows).
Proof.
  intros Hkey. induction rows as [|row rest IH]; [reflexivity|].
  simpl. rewrite Hkey. destruct (String.eqb (key row) id); simpl; now rewrite IH.
Qed.

Lemma start_id id row : InventoryAudit.id (start id row) = InventoryAudit.id row.
Proof. unfold start. now destruct (String.eqb (InventoryAudit.id row) id). Qed.

Lemma restatus_id id status now user_id row :
  InventoryAudit.id (restatus id status now user_id row) = InventoryAudit.id row.
Proof. unfold restatus. now destruct (String.eqb (InventoryAudit.id row) id). Qed.

Lemma complete_id id now user_id row :
  InventoryAudit.id (complete id now user_id row) = InventoryAudit.id row.
Proof. unfold complete. now destruct (String.eqb (InventoryAudit.id row) id). Qed.


Lemma single_filter_id {A : Type} (key : A -> string) (id : string)
  (rows : list A) (row : A) :
  single (filter (fun r => String.eqb (key r) id) rows) = Some row -> key row = id.
Proof.
  intros H. apply single_Some in H.
  assert (Hin : In row (filter (fun r => String.eqb (key r) id) rows))
    by (rewrite H; now left).
  apply filter_In in Hin as [_ Hid]. now apply String.eqb_eq.
Qed.








End LoadingAudit.

(** X14: opening a draft audit that has no items creates them from the
    inventory of its branch: one item per inventory row, in the same
    order, with the row's product, expected_quantity = the row's quantity
    and no count yet; the audit becomes in_progress; the stock tables are
    not written.  (All calls to the backend succeeding.) *)
Theorem audit_items_snapshot_the_ledger
  (id : string) (backend : EditInventoryAuditHandlers.answers) (db : database)
  (auditData : InventoryAudit.t) (new_id : string -> string) :
  single (filter (fun row => String.eqb (InventoryAudit.id row) id) (inventory_audits db))
  = Some auditData ->
  InventoryAudit.status auditData = draft ->
  items_of id db = [] ->
  EditInventoryAuditHandlers.auditError backend = None ->
  EditInventoryAuditHandlers.branchError backend = None ->
  EditInventoryAuditHandlers.itemsError backend = None ->
  EditInventoryAuditHandlers.inventoryError backend = None ->
  EditInventoryAuditHandlers.insertAnswer backend = inr new_id ->
  EditInventoryAuditHandlers.updateError backend = None ->
  let inventoryData :=
    filter (fun item => String.eqb (InventoryItem.branch_id item)
                                   (InventoryAudit.branch_id auditData))
           (inventory_items db) in
  inventoryData <> [] ->
  let result := EditInventoryAuditHandlers.fetchAuditData id backend db in
  exists st,
    snd result = EditInventoryAuditHandlers.Loaded st
    /\ map (fun item => (InventoryAuditItem.product_id item,
                         InventoryAuditItem.expected_quantity item))
           (EditInventoryAuditPage.auditItems st)
       = map (fun row => (InventoryItem.product_id row, InventoryItem.quantity row))
             inventoryData
    /\ Forall (fun item => InventoryAuditItem.actual_quantity item = None
                           /\ InventoryAuditItem.difference item = None
                           /\ InventoryAuditItem.audit_id item = id)
              (EditInventoryAuditPage.auditItems st)
    /\ inventory_audit_items (fst result)
       = inventory_audit_items db ++ EditInventoryAuditPage.auditItems st
    /\ option_map InventoryAudit.status (EditInventoryAuditPage.audit st)
       = Some in_progress
    /\ map InventoryAudit.status
           (filter (fun row => String.eqb (InventoryAudit.id row) id)
                   (inventory_audits (fst result)))
       = [in_progress]
    /\ same_stock db (fst result) /\ same_waste db (fst result)
    /\ same_transformations db (fst result) /\ same_purchases db (fst result).
Proof.
  intros Hsingle Hdraft Hnone Ha Hb Hi Hinv Hins Hupd inventoryData Hdata result.
  subst result. unfold EditInventoryAuditHandlers.fetchAuditData.
  rewrite Ha, Hsingle. cbv beta iota. rewrite Hdraft.
  cbn [EditInventoryAuditHandlers.editable negb].
  assert (Hd : EditInventoryAuditHandlers.is_draft (Some auditData) = true)
    by (unfold EditInventoryAuditHandlers.is_draft; now rewrite Hdraft).
  rewrite Hb, Hi. unfold items_of in Hnone. rewrite Hnone, Hd.
  cbn [EditInventoryAuditHandlers.order_by_id fold_right List.length Nat.eqb andb].
  rewrite Hinv.
  fold inventoryData.
  destruct inventoryData as [|row rest] eqn:Hrows; [contradiction|].
  cbn [List.length Nat.ltb Nat.leb]. rewrite Hins, Hupd. cbn [fst snd].
  eexists. split; [reflexivity|]. cbn [EditInventoryAuditPage.auditItems].
  split; [|split; [|split; [|split; [|split]]]].
  - unfold EditInventoryAuditHandlers.auditItemsToInsert. rewrite map_map. reflexivity.
  - unfold EditInventoryAuditHandlers.auditItemsToInsert. apply Forall_forall.
    intros item Hin. apply in_map_iff in Hin as (r & <- & _). repeat split.
  - reflexivity.
  - reflexivity.
  - cbn [inventory_audits set_inventory_audits set_inventory_audit_items].
    rewrite filter_map_same_key by apply start_id.
    pose proof (single_filter_id InventoryAudit.id _ _ Hsingle) as E.
    apply single_Some in Hsingle. rewrite Hsingle. cbn [map].
    unfold EditInventoryAuditHandlers.start.
    rewrite E, String.eqb_refl. reflexivity.
  - repeat split.
Qed.

Lemma audit_items_snapshot_the_ledger_witness :
  exists st,
    snd (EditInventoryAuditHandlers.fetchAuditData "audit-1" backend_accepts
           scenario_E_created)
    = EditInventoryAuditHandlers.Loaded st
    /\ map (fun item => (InventoryAuditItem.product_id item,
                         InventoryAuditItem.expected_quantity item))
           (EditInventoryAuditPage.auditItems st)
       = [("P1"%string, of_Z 15)].
Proof.
  destruct (@audit_items_snapshot_the_ledger "audit-1" backend_accepts scenario_E_created
              _ _ eq_refl eq_refl eq_refl eq_refl eq_refl eq_refl eq_refl eq_refl eq_refl)
    as (st & Hloaded & Hitems & _).
  - discriminate.
  - exists st. split; [exact Hloaded | exact Hitems].
Defined.



(** ** A session on the audit page *)

Section AuditSession.

Import EditInventoryAuditPage EditInventoryAuditHandlers.

Lemma filter_map_other_key {A : Type} (key : A -> string) (f : A -> A) (id : string)
  (rows : list A) :
  (forall row, key (f row) = key row) ->
  (forall row, String.eqb (key row) id = false -> f row = row) ->
  filter (fun row => negb (String.eqb (key row) id)) (map f rows)
  = filter (fun row => negb (String.eqb (key row) id)) rows.
Proof.
  intros Hkey Hother. induction rows as [|row rest IH]; [reflexivity|].
  simpl. rewrite Hkey. destruct (String.eqb (key row) id) eqn:E; simpl.
  - exact IH.
  - now rewrite IH, Hother.
Qed.

Lemma restatus_other id status now user_id row :
  String.eqb (InventoryAudit.id row) id = false -> restatus id status now user_id row = row.
Proof. intros H. unfold restatus. now rewrite H. Qed.

Lemma complete_other id now user_id row :
  String.eqb (InventoryAudit.id row) id = false -> complete id now user_id row = row.
Proof. intros H. unfold complete. now rewrite H. Qed.

Lemma map_id_same {A : Type} (key : A -> string) (f : A -> A) (rows : list A) :
  (forall row, key (f row) = key row) -> map key (map f rows) = map key rows.
Proof.
  intros H. rewrite map_map. apply map_ext. exact H.
Qed.

Lemma count_snapshot itemId value difference i :
  snapshot (count itemId value difference i) = snapshot i.
Proof. unfold count. now destruct (String.eqb (InventoryAuditItem.id i) itemId). Qed.

Lemma annotate_snapshot itemId value i : snapshot (annotate itemId value i) = snapshot i.
Proof. unfold annotate. now destruct (String.eqb (InventoryAuditItem.id i) itemId). Qed.

Lemma map_snapshot_same (f : InventoryAuditItem.t -> InventoryAuditItem.t) rows :
  (forall i, snapshot (f i) = snapshot i) -> map snapshot (map f rows) = map snapshot rows.
Proof. intros H. rewrite map_map. apply map_ext. exact H. Qed.

Lemma audit_frame_refl session : audit_frame session session.
Proof. destruct session as [db st]. unfold audit_frame. repeat split. Qed.

Lemma audit_frame_trans s1 s2 s3 :
  audit_frame s1 s2 -> audit_frame s2 s3 -> audit_frame s1 s3.
Proof.
  destruct s1 as [db1 st1], s2 as [db2 st2], s3 as [db3 st3].
  unfold audit_frame, same_stock, same_waste, same_transformations, same_purchases.
  intros (Hid & (Ha & Hb) & Hc & (Hd & He) & (Hf & Hg) & Hh & Hi & Hj)
         (Hid' & (Ha' & Hb') & Hc' & (Hd' & He') & (Hf' & Hg') & Hh' & Hi' & Hj').
  rewrite Hid in *. repeat split; congruence.
Qed.

Lemma perform_frame a session : audit_frame session (perform a session).
Proof.
  destruct session as [db st].
  destruct a as [err itemId value | err itemId value | now user_id err
                | confirmed now user_id err | confirmed now user_id err];
    cbn [perform].
  - unfold handleActualQuantityChange.
    destruct (find _ (auditItems st)); [|apply audit_frame_refl].
    destruct err; [apply audit_frame_refl|].
    cbn [fst]. unfold audit_frame. repeat split.
    cbn [inventory_audit_items set_inventory_audit_items].
    apply map_snapshot_same. intros i. apply count_snapshot.
  - unfold handleItemNoteChange.
    destruct err; [apply audit_frame_refl|].
    cbn [fst]. unfold audit_frame. repeat split.
    cbn [inventory_audit_items set_inventory_audit_items].
    apply map_snapshot_same. intros i. apply annotate_snapshot.
  - unfold handleSaveAudit.
    destruct (is_draft (audit st)); [|apply audit_frame_refl].
    destruct err; [apply audit_frame_refl|].
    cbn [fst]. unfold audit_frame. repeat split.
    + cbn [inventory_audits set_inventory_audits].
      apply map_id_same. intros row. apply restatus_id.
    + cbn [inventory_audits set_inventory_audits].
      apply filter_map_other_key; intros row; [apply restatus_id|apply restatus_other].
  - unfold handleCancelAudit.
    destruct confirmed; cbn [negb]; [|apply audit_frame_refl].
    destruct err; [apply audit_frame_refl|].
    cbn [fst]. unfold audit_frame. repeat split.
    + cbn [inventory_audits set_inventory_audits].
      apply map_id_same. intros row. apply restatus_id.
    + cbn [inventory_audits set_inventory_audits].
      apply filter_map_other_key; intros row; [apply restatus_id|apply restatus_other].
  - unfold handleCompleteAudit.
    destruct (0 <? _)%nat; [apply audit_frame_refl|].
    destruct confirmed; cbn [negb]; [|apply audit_frame_refl].
    destruct err; [apply audit_frame_refl|].
    cbn [fst]. unfold audit_frame. repeat split.
    + cbn [inventory_audits set_inventory_audits].
      apply map_id_same. intros row. apply complete_id.
    + cbn [inventory_audits set_inventory_audits].
      apply filter_map_other_key; intros row; [apply complete_id|apply complete_other].
Qed.

End AuditSession.

(** X16: the handlers of the audit page write the two audit tables and
    nothing else.  Whatever sequence of counts, notes, saves,
    cancellations and completions is performed, with whatever answers of
    the backend, the writes the page itself makes leave the stock and
    document tables as they are (what a completion does to the stock is
    the work of a trigger of the database, not of the page), they leave
    the audits other than the page's as they are, they add and remove no
    audit and no item, and every audit item keeps its id, audit, product
    and expected_quantity. *)
Theorem audit_session_writes_the_audit_tables_only
  (actions : list audit_action) (session : database * EditInventoryAuditPage.state) :
  audit_frame session (session_after actions session).
Proof.
  revert session. induction actions as [|a rest IH]; intros session.
  - apply audit_frame_refl.
  - unfold session_after. cbn [fold_left]. fold (session_after rest (perform a session)).
    eapply audit_frame_trans; [apply perform_frame | apply IH].
Qed.




(** ** Counting *)

Section Counting.

Import EditInventoryAuditPage EditInventoryAuditHandlers.

Lemma NoDup_key_inj {A : Type} (key : A -> string) (rows : list A) (a b : A) :
  NoDup (map key rows) -> In a rows -> In b rows -> key a = key b -> a = b.
Proof.
  induction rows as [|row rest IH]; intros Hnd Ha Hb Hkey; [contradiction|].
  simpl in Hnd. apply NoDup_cons_iff in Hnd as [Hnot Hnd].
  destruct Ha as [->|Ha], Hb as [->|Hb]; auto.
  - exfalso. apply Hnot. rewrite Hkey. now apply in_map.
  - exfalso. apply Hnot. rewrite <- Hkey. now apply in_map.
Qed.

Lemma count_audit_id itemId value difference i :
  InventoryAuditItem.audit_id (count itemId value difference i)
  = InventoryAuditItem.audit_id i.
Proof. unfold count. now destruct (String.eqb (InventoryAuditItem.id i) itemId). Qed.

Lemma count_id itemId value difference i :
  InventoryAuditItem.id (count itemId value difference i) = InventoryAuditItem.id i.
Proof. unfold count. now destruct (String.eqb (InventoryAuditItem.id i) itemId). Qed.

Lemma annotate_audit_id itemId value i :
  InventoryAuditItem.audit_id (annotate itemId value i) = InventoryAuditItem.audit_id i.
Proof. unfold annotate. now destruct (String.eqb (InventoryAuditItem.id i) itemId). Qed.

Lemma annotate_id itemId value i :
  InventoryAuditItem.id (annotate itemId value i) = InventoryAuditItem.id i.
Proof. unfold annotate. now destruct (String.eqb (InventoryAuditItem.id i) itemId). Qed.

Lemma annotate_consistent itemId value i : consistent i -> consistent (annotate itemId value i).
Proof.
  unfold annotate. now destruct (String.eqb (InventoryAuditItem.id i) itemId).
Qed.

Lemma items_of_map auditId (f : InventoryAuditItem.t -> InventoryAuditItem.t) db :
  (forall i, InventoryAuditItem.audit_id (f i) = InventoryAuditItem.audit_id i) ->
  items_of auditId (set_inventory_audit_items (map f (inventory_audit_items db)) db)
  = map f (items_of auditId db).
Proof.
  intros H. unfold items_of. cbn [inventory_audit_items set_inventory_audit_items].
  now apply filter_map_same_key.
Qed.

(** The item the handler finds is the only row with that id. *)
Lemma found_item_is_the_row db st itemId item row :
  counting_invariant (db, st) ->
  find (fun i => String.eqb (InventoryAuditItem.id i) itemId) (auditItems st) = Some item ->
  In row (inventory_audit_items db) ->
  String.eqb (InventoryAuditItem.id row) itemId = true ->
  row = item.
Proof.
  intros (Hsync & Hnd & _) Hfind Hrow Hid.
  apply find_some in Hfind as [Hin Hitem].
  rewrite Hsync in Hin. unfold items_of in Hin. apply filter_In in Hin as [Hin _].
  apply String.eqb_eq in Hid. apply String.eqb_eq in Hitem.
  apply (NoDup_key_inj InventoryAuditItem.id (inventory_audit_items db)); congruence.
Qed.

Lemma perform_keeps_counting_invariant a session :
  counting_invariant session -> counting_invariant (perform a session).
Proof.
  destruct session as [db st]. intros Hinv.
  destruct a as [err itemId value | err itemId value | now user_id err
                | confirmed now user_id err | confirmed now user_id err];
    cbn [perform].
  - unfold handleActualQuantityChange.
    destruct (find _ (auditItems st)) as [item|] eqn:Hfind; [|exact Hinv].
    destruct err; [exact Hinv|]. cbn [fst].
    pose proof Hinv as (Hsync & Hnd & Hcons).
    unfold counting_invariant. cbn [auditItems auditId with_auditItems].
    split; [|split].
    + rewrite items_of_map by (intros i; apply count_audit_id). now rewrite Hsync.
    + cbn [inventory_audit_items set_inventory_audit_items].
      rewrite map_id_same by (intros i; apply count_id). exact Hnd.
    + cbn [inventory_audit_items set_inventory_audit_items].
      apply Forall_forall. intros row' Hin.
      apply in_map_iff in Hin as (row & <- & Hrow).
      unfold count. destruct (String.eqb (InventoryAuditItem.id row) itemId) eqn:E.
      * rewrite (@found_item_is_the_row db st itemId item row Hinv Hfind Hrow E).
        reflexivity.
      * rewrite Forall_forall in Hcons. now apply Hcons.
  - unfold handleItemNoteChange. destruct err; [exact Hinv|]. cbn [fst].
    destruct Hinv as (Hsync & Hnd & Hcons).
    unfold counting_invariant. cbn [auditItems auditId with_auditItems].
    split; [|split].
    + rewrite items_of_map by (intros i; apply annotate_audit_id). now rewrite Hsync.
    + cbn [inventory_audit_items set_inventory_audit_items].
      rewrite map_id_same by (intros i; apply annotate_id). exact Hnd.
    + cbn [inventory_audit_items set_inventory_audit_items].
      apply Forall_forall. intros row' Hin.
      apply in_map_iff in Hin as (row & <- & Hrow).
      apply annotate_consistent. rewrite Forall_forall in Hcons. now apply Hcons.
  - unfold handleSaveAudit. destruct (is_draft (audit st)); [|exact Hinv].
    destruct err; exact Hinv.
  - unfold handleCancelAudit. destruct confirmed; [|exact Hinv].
    destruct err; exact Hinv.
  - unfold handleCompleteAudit. destruct (0 <? _)%nat; [exact Hinv|].
    destruct confirmed; [|exact Hinv]. destruct err; exact Hinv.
Qed.

End Counting.

(** X18: the difference of an audit item is always its count minus its
    expectation.  If the page shows the items the database holds for its
    audit, item ids are unique and every item has difference = actual -
    expected (none before it is counted), then this is still so after any
    sequence of counts, notes, saves, cancellations and completions. *)
Theorem audit_session_keeps_differences_consistent
  (actions : list audit_action) (session : database * EditInventoryAuditPage.state) :
  counting_invariant session -> counting_invariant (session_after actions session).
Proof.
  revert session. induction actions as [|a rest IH]; intros session Hinv; [exact Hinv|].
  unfold session_after. cbn [fold_left]. fold (session_after rest (perform a session)).
  apply IH. now apply perform_keeps_counting_invariant.
Qed.

Lemma audit_session_keeps_differences_consistent_witness :
  counting_invariant
    (session_after [Count None "audit-item-1" (of_Z 12);
                    Note None "audit-item-1" "shelf 3";
                    Count None "audit-item-1" (of_Z 14)]
       (scenario_E, editing_scenario_E)).
Proof.
  apply (@audit_session_keeps_differences_consistent
           [Count None "audit-item-1" (of_Z 12);
            Note None "audit-item-1" "shelf 3";
            Count None "audit-item-1" (of_Z 14)]
           (scenario_E, editing_scenario_E)).
  split; [reflexivity|]. split; repeat constructor. intros [].
Defined.

(** ** Rows added to a form *)

Section AddedRows.


End AddedRows.


(** ** The auth store and the guards *)

Section AuthStore.

Import Auth.

Lemma apply_call_keeps_agreement (c : call) (s : AuthState) :
  isAuthenticated s = present (current s) ->
  isAuthenticated (apply_call c s) = present (current (apply_call c s)).
Proof. destruct c; cbn; auto. Qed.

Lemma after_keeps_agreement (calls : list call) (s : AuthState) :
  isAuthenticated s = present (current s) ->
  isAuthenticated (after calls s) = present (current (after calls s)).
Proof.
  revert s. induction calls as [|c rest IH]; intros s H; [exact H|].
  cbn. apply IH. now apply apply_call_keeps_agreement.
Qed.

Lemma role_eqb_eq (a b : UserRole) : role_eqb a b = true <-> a = b.
Proof. destruct a, b; cbn; split; congruence. Qed.

Lemma includes_role (r : UserRole) (allowedRoles : list UserRole) :
  existsb (role_eqb r) allowedRoles = true <-> In r allowedRoles.
Proof.
  rewrite existsb_exists. split.
  - intros (x & Hin & E). apply role_eqb_eq in E. now subst.
  - intros Hin. exists r. split; [exact Hin | now apply role_eqb_eq].
Qed.

End AuthStore.

(** X20: after any sequence of calls on the auth store, starting from the
    state it is created with, isAuthenticated is true exactly when a user
    is stored; in particular the two tests of the guards,
    [!isAuthenticated] and [!user], always agree. *)
Theorem auth_store_flag_follows_the_user (calls : list Auth.call) :
  let s := Auth.after calls Auth.initial in
  Auth.isAuthenticated s = Auth.present (Auth.current s)
  /\ (Auth.isAuthenticated s = true <-> exists u, Auth.current s = Some u).
Proof.
  intros s.
  assert (H : Auth.isAuthenticated s = Auth.present (Auth.current s))
    by (apply after_keeps_agreement; reflexivity).
  split; [exact H|]. rewrite H. destruct (Auth.current s) as [u|]; cbn.
  - split; [intros _; now exists u | reflexivity].
  - split; [discriminate | intros (u & E); discriminate E].
Qed.

(** X21: what the guards let through.  In any state the store can reach,
    RoleGuard renders its children exactly when the store has finished
    loading and holds a user whose role is one of the allowed roles, and
    BranchGuard exactly when it holds an admin or a user of that branch;
    after logout neither renders them, whatever was stored before. *)
Theorem guards_render_children_only_for_the_allowed
  (calls : list Auth.call) (allowedRoles : list Auth.UserRole)
  (branchId fallbackPath : string) :
  let s := Auth.after calls Auth.initial in
  (Auth.RoleGuard s allowedRoles fallbackPath = Auth.Children
   <-> Auth.isLoading s = false
       /\ exists u, Auth.current s = Some u /\ In (Auth.role u) allowedRoles)
  /\ (Auth.BranchGuard s branchId fallbackPath = Auth.Children
      <-> Auth.isLoading s = false
          /\ exists u, Auth.current s = Some u
                       /\ (Auth.role u = Auth.admin
                           \/ Auth.branch_id u = Some branchId))
  /\ Auth.RoleGuard (Auth.logout s) allowedRoles fallbackPath <> Auth.Children
  /\ Auth.BranchGuard (Auth.logout s) branchId fallbackPath <> Auth.Children.
Proof.
  intros s.
  assert (H : Auth.isAuthenticated s = Auth.present (Auth.current s))
    by (apply after_keeps_agreement; reflexivity).
  split; [|split; [|split]].
  - unfold Auth.RoleGuard. rewrite H.
    destruct (Auth.isLoading s); [split; [discriminate | intros [E _]; discriminate E]|].
    destruct (Auth.current s) as [u|]; cbn.
    + destruct (existsb (Auth.role_eqb (Auth.role u)) allowedRoles) eqn:E; cbn.
      * apply includes_role in E. split; [|reflexivity].
        intros _. split; [reflexivity|]. now exists u.
      * split; [discriminate|]. intros (_ & u' & Hu & Hin).
        injection Hu as <-. apply includes_role in Hin. congruence.
    + split; [discriminate|]. intros (_ & u & Hu & _). discriminate Hu.
  - unfold Auth.BranchGuard. rewrite H.
    destruct (Auth.isLoading s); [split; [discriminate | intros [E _]; discriminate E]|].
    destruct (Auth.current s) as [u|]; cbn.
    + destruct (Auth.role_eqb (Auth.role u) Auth.admin) eqn:E.
      * apply role_eqb_eq in E. split; [|reflexivity].
        intros _. split; [reflexivity|]. exists u. split; [reflexivity | now left].
      * unfold Auth.other_branch.
        destruct (Auth.branch_id u) as [b|] eqn:B; cbn.
        -- destruct (String.eqb b branchId) eqn:Eb; cbn.
           ++ apply String.eqb_eq in Eb. subst b. split; [|reflexivity].
              intros _. split; [reflexivity|]. exists u. split; [reflexivity|].
              now right.
           ++ split; [discriminate|]. intros (_ & u' & Hu & [Hr|Hb]).
              ** injection Hu as <-. apply role_eqb_eq in Hr. congruence.
              ** injection Hu as <-. rewrite B in Hb. injection Hb as ->.
                 rewrite String.eqb_refl in Eb. discriminate Eb.
        -- split; [discriminate|]. intros (_ & u' & Hu & [Hr|Hb]).
           ++ injection Hu as <-. apply role_eqb_eq in Hr. congruence.
           ++ injection Hu as <-. rewrite B in Hb. discriminate Hb.
    + split; [discriminate|]. intros (_ & u & Hu & _). discriminate Hu.
  - unfold Auth.RoleGuard. cbn. destruct (Auth.isLoading s); discriminate.
  - unfold Auth.BranchGuard. cbn. destruct (Auth.isLoading s); discriminate.
Qed.

(** ** Invoice and reference numbers *)

Section Formatting.

Import Format.

Lemma free_of_append (c : ascii) (a b : string) :
  free_of c (append a b) = free_of c a && free_of c b.
Proof.
  induction a as [|c' a IH]; [reflexivity|].
  cbn. rewrite IH. now rewrite andb_assoc.
Qed.

Lemma split_free (sep : ascii) (a : string) :
  free_of sep a = true -> split sep a = [a].
Proof.
  induction a as [|c a IH]; [reflexivity|].
  cbn. intros H. apply andb_prop in H as [Hc Ha].
  apply negb_true_iff in Hc. rewrite Hc, (IH Ha). reflexivity.
Qed.

Lemma split_append (sep : ascii) (a b : string) :
  free_of sep a = true ->
  split sep (append a (String sep b)) = a :: split sep b.
Proof.
  induction a as [|c a IH]; intros H.
  - cbn. now rewrite Ascii.eqb_refl.
  - cbn in H. apply andb_prop in H as [Hc Ha]. apply negb_true_iff in Hc.
    cbn. rewrite Hc, (IH Ha). reflexivity.
Qed.

Lemma free_of_substring (c : ascii) (s : string) :
  free_of c s = true -> forall n m, free_of c (substring n m s) = true.
Proof.
  induction s as [|c' s IH]; intros H n m.
  - destruct n, m; reflexivity.
  - cbn in H. apply andb_prop in H as [Hc Hs].
    destruct n as [|n]; [destruct m as [|m]|]; cbn.
    + reflexivity.
    + rewrite Hc. now apply IH.
    + now apply IH.
Qed.

Lemma length_substring (s : string) :
  forall n m, String.length (substring n m s) = Nat.min m (String.length s - n).
Proof.
  induction s as [|c s IH]; intros n m.
  - destruct n, m; reflexivity.
  - destruct n as [|n]; [destruct m as [|m]|]; cbn [substring String.length].
    + reflexivity.
    + rewrite IH. rewrite Nat.sub_0_r. cbn. reflexivity.
    + rewrite IH. reflexivity.
Qed.

Lemma length_slice_last (k : nat) (s : string) :
  String.length (slice_last k s) = Nat.min k (String.length s).
Proof. unfold slice_last. rewrite length_substring. lia. Qed.

Lemma free_of_repeat_char (c pad : ascii) (n : nat) :
  Ascii.eqb pad c = false -> free_of c (repeat_char pad n) = true.
Proof. intros H. induction n as [|n IH]; cbn; [reflexivity|]. now rewrite H, IH. Qed.

Lemma length_repeat_char (pad : ascii) (n : nat) :
  String.length (repeat_char pad n) = n.
Proof. induction n as [|n IH]; cbn; congruence. Qed.

Lemma length_append (a b : string) :
  String.length (append a b) = (String.length a + String.length b)%nat.
Proof. induction a as [|c a IH]; cbn; congruence. Qed.

Lemma length_padStart (k : nat) (pad : ascii) (s : string) :
  String.length (padStart k pad s) = Nat.max k (String.length s).
Proof.
  unfold padStart. rewrite length_append, length_repeat_char. lia.
Qed.

Lemma digits_free_of_dash (d : Decimal.uint) :
  free_of "-" (NilEmpty.string_of_uint d) = true.
Proof. induction d; cbn; auto. Qed.

Lemma toString_free_of_dash (n : N) : free_of "-" (toString n) = true.
Proof.
  unfold toString, NilZero.string_of_uint.
  destruct (N.to_uint n); try reflexivity; apply digits_free_of_dash.
Qed.

Lemma toString_length_positive (n : N) : (1 <= String.length (toString n))%nat.
Proof.
  unfold toString, NilZero.string_of_uint.
  destruct (N.to_uint n); cbn; lia.
Qed.

Lemma three_digits (random : N) :
  (random < 1000)%N -> (String.length (toString random) <= 3)%nat.
Proof.
  intros H.
  assert (All : forallb (fun k => String.length (toString (N.of_nat k)) <=? 3)%nat
                        (seq 0 1000) = true) by (vm_compute; reflexivity).
  rewrite forallb_forall in All.
  specialize (All (N.to_nat random)).
  rewrite N2Nat.id in All. apply Nat.leb_le, All, in_seq. lia.
Qed.

End Formatting.

(** X23: the parts of an invoice number.  Splitting what
    generateInvoiceNumber returns at the dashes gives back its three
    parts: INV, the last digits of the clock (between one and six of
    them) and the random part (three characters when the random number is
    below 1000).  The default reference of the waste, transformation and
    audit forms is therefore the label followed by the digits of the
    clock alone: it does not depend on the random part. *)
Theorem default_reference_is_the_clock_part (label : string) (now random : N) :
  let timestamp := Format.slice_last 6 (Format.toString now) in
  Format.split "-" (Format.generateInvoiceNumber now random)
  = [ "INV"%string; timestamp; Format.padStart 3 "0" (Format.toString random) ]
  /\ Format.defaultReference label now random
     = append label (append "-" timestamp)
  /\ (1 <= String.length timestamp <= 6)%nat
  /\ ((random < 1000)%N ->
      String.length (Format.padStart 3 "0" (Format.toString random)) = 3%nat)
  /\ (forall random',
        Format.defaultReference label now random'
        = Format.defaultReference label now random).
Proof.
  intros timestamp.
  assert (Parts : forall r,
            Format.split "-" (Format.generateInvoiceNumber now r)
            = [ "INV"%string; timestamp; Format.padStart 3 "0" (Format.toString r) ]).
  { intros r. unfold Format.generateInvoiceNumber, timestamp. cbv zeta.
    change (append "-" ?x) with (String "-" x).
    rewrite split_append by reflexivity.
    change (append "-" ?x) with (String "-" x).
    rewrite split_append
      by (apply free_of_substring, toString_free_of_dash).
    rewrite split_free; [reflexivity|].
    unfold Format.padStart. rewrite free_of_append.
    rewrite free_of_repeat_char by reflexivity.
    apply toString_free_of_dash. }
  assert (Ref : forall r,
            Format.defaultReference label now r = append label (append "-" timestamp)).
  { intros r. unfold Format.defaultReference. rewrite Parts. reflexivity. }
  split; [apply Parts|]. split; [apply Ref|]. split; [|split].
  - unfold timestamp. rewrite length_slice_last.
    pose proof (toString_length_positive now). lia.
  - intros H. rewrite length_padStart.
    pose proof (three_digits H). lia.
  - intros r. now rewrite !Ref.
Qed.

(** ** Opening an audit *)

Section OpeningAudits.

Import AddInventoryAuditPage.

Lemma existing_iff_open data audits :
  (0 <? List.length (existingAudit data audits))%nat = true
  <-> In (branch_id data, audit_date data) (open_audits audits).
Proof.
  unfold existingAudit, open_audits. rewrite length_map.
  induction audits as [|row rest IH]; cbn [filter].
  - cbn. split; [discriminate | intros []].
  - unfold same_branch_and_date at 1.
    destruct (negb (is_cancelled (InventoryAuditRow.status row))) eqn:Open.
    + rewrite andb_true_r. cbn [map In].
      destruct (String.eqb (InventoryAuditRow.branch_id row) (branch_id data)) eqn:B;
        [destruct (String.eqb (InventoryAuditRow.audit_date row) (audit_date data)) eqn:D|];
        cbn [andb].
      * apply String.eqb_eq in B, D. cbn. split; [intros _; left; congruence | reflexivity].
      * rewrite IH. split; [now right|]. intros [E|H]; [|exact H].
        injection E as _ E. apply String.eqb_eq in E. congruence.
      * rewrite IH. split; [now right|]. intros [E|H]; [|exact H].
        injection E as E _. apply String.eqb_eq in E. congruence.
    + rewrite andb_false_r. exact IH.
Qed.

Lemma open_audits_app audits audits' :
  open_audits (audits ++ audits') = open_audits audits ++ open_audits audits'.
Proof. unfold open_audits. now rewrite filter_app, map_app. Qed.

End OpeningAudits.

(** X24: one open audit per branch and day.  If no two audits that are
    not cancelled share a branch and a date, this still holds after
    AddInventoryAuditPage has submitted a form, whatever the form and the
    backend answer.  The page refuses with its own error exactly when the
    form is valid, the check could be made and an audit that is not
    cancelled exists for the branch and date; otherwise, when it opens
    the edit page, it has added one audit, a draft with the form's branch
    and date, and in every other case it has written nothing. *)
Theorem audit_is_opened_once_per_branch_and_day
  (user_id checkError : option string) (auditAnswer : inserted)
  (data : AddInventoryAuditPage.AuditFormValues) (audits : list InventoryAuditRow.t) :
  NoDup (open_audits audits) ->
  let result := AddInventoryAuditPage.submit user_id checkError auditAnswer data audits in
  NoDup (open_audits (fst result))
  /\ (snd result = AddInventoryAuditPage.DuplicateAudit
      <-> AddInventoryAuditPage.auditSchema data = true /\ checkError = None
          /\ In (AddInventoryAuditPage.branch_id data,
                 AddInventoryAuditPage.audit_date data) (open_audits audits))
  /\ ((exists row,
         fst result = audits ++ [row]
         /\ snd result
            = AddInventoryAuditPage.Opened
                (append "/dashboard/inventory-audits/edit/" (InventoryAuditRow.id row))
         /\ InventoryAuditRow.status row = draft
         /\ InventoryAuditRow.branch_id row = AddInventoryAuditPage.branch_id data
         /\ InventoryAuditRow.audit_date row = AddInventoryAuditPage.audit_date data)
      \/ (fst result = audits
          /\ forall route, snd result <> AddInventoryAuditPage.Opened route)).
Proof.
  intros Hunique result. subst result. unfold AddInventoryAuditPage.submit.
  destruct (AddInventoryAuditPage.auditSchema data);
    [|cbn; split; [exact Hunique|]; split;
      [split; [discriminate | intros [E _]; discriminate E]
      | right; split; [reflexivity | discriminate]]].
  unfold AddInventoryAuditPage.onSubmit.
  destruct checkError as [message|];
    [cbn; split; [exact Hunique|]; split;
      [split; [discriminate | intros (_ & E & _); discriminate E]
      | right; split; [reflexivity | discriminate]]|].
  destruct (0 <? List.length (AddInventoryAuditPage.existingAudit data audits))%nat eqn:E.
  - apply existing_iff_open in E. cbn. split; [exact Hunique|]. split.
    + split; [intros _; repeat split; exact E | reflexivity].
    + right. split; [reflexivity | discriminate].
  - assert (Hfree : ~ In (AddInventoryAuditPage.branch_id data,
                          AddInventoryAuditPage.audit_date data) (open_audits audits)).
    { intros Hin. apply existing_iff_open in Hin. congruence. }
    destruct auditAnswer as [message|new_id]; cbn [fst snd].
    + split; [exact Hunique|]. split.
      * split; [discriminate | intros (_ & _ & Hin); contradiction].
      * right. split; [reflexivity | discriminate].
    + split; [|split].
      * rewrite open_audits_app. cbn. apply NoDup_app; [exact Hunique | |].
        -- constructor; [intros [] | constructor].
        -- intros key Hin [<-|[]]. contradiction.
      * split; [discriminate | intros (_ & _ & Hin); contradiction].
      * left. eexists. repeat split.
Qed.

Lemma audit_is_opened_once_per_branch_and_day_witness :
  let result :=
    AddInventoryAuditPage.submit (Some "user-1"%string) None (inr "audit-1"%string)
      audit_of_B1 one_cancelled_audit in
  NoDup (open_audits (fst result))
  /\ snd result = AddInventoryAuditPage.Opened "/dashboard/inventory-audits/edit/audit-1"
  /\ snd (AddInventoryAuditPage.submit (Some "user-1"%string) None (inr "audit-2"%string)
            audit_of_B1 (fst result))
     = AddInventoryAuditPage.DuplicateAudit.
Proof.
  intros result. split; [|split; reflexivity].
  apply (@audit_is_opened_once_per_branch_and_day (Some "user-1"%string) None
           (inr "audit-1"%string) audit_of_B1 one_cancelled_audit).
  constructor.
Defined.

(** ** The purchases report *)

Section ReportGroups.

Import PurchasesReportPage.







End ReportGroups.



(** ** A page whose load failed *)

Section FailedLoad.



End FailedLoad.



(** X27: the manual adjustment page holds an entry only when both reads
    of its load succeeded.  When the read of the row or the read of its
    product failed, or the route has no id, submitting does nothing at
    all, whatever the form and the backend answer; and an entry the page
    holds is the one row of the table that had the id. *)
Theorem manual_adjustment_needs_both_reads
  (id now : string) (itemError productError adjustmentError updateError : option string)
  (data : AdjustInventoryPage.AdjustInventoryFormValues) (db0 db : database) :
  let st := AdjustInventoryPage.fetchInventoryItem id itemError productError db0 in
  (itemError <> None \/ productError <> None \/ id = EmptyString ->
   AdjustInventoryPage.inventoryItem st = None
   /\ AdjustInventoryPage.submit st now adjustmentError updateError data db = (db, Ignored))
  /\ (forall entry,
        AdjustInventoryPage.inventoryItem st = Some entry ->
        filter (fun row => String.eqb (InventoryItem.id row) id) (inventory_items db0)
        = [entry]).
Proof.
  cbv zeta. split.
  - intros Hfailed.
    assert (Hnone : AdjustInventoryPage.inventoryItem
                      (AdjustInventoryPage.fetchInventoryItem id itemError productError db0)
                    = None).
    { cbn [AdjustInventoryPage.inventoryItem AdjustInventoryPage.fetchInventoryItem].
      destruct Hfailed as [H|[H| ->]]; [| |reflexivity].
      - destruct (negb (nonempty id)); [reflexivity|].
        destruct itemError; [reflexivity | contradiction].
      - destruct (negb (nonempty id)); [reflexivity|].
        destruct itemError; [reflexivity|].
        destruct (single _); [|reflexivity].
        destruct productError; [reflexivity | contradiction]. }
    split; [exact Hnone|].
    unfold AdjustInventoryPage.submit, handleSubmit.
    destruct (AdjustInventoryPage.adjustInventorySchema data); [|reflexivity].
    unfold AdjustInventoryPage.onSubmit. now rewrite Hnone.
  - intros entry.
    cbn [AdjustInventoryPage.inventoryItem AdjustInventoryPage.fetchInventoryItem].
    destruct (negb (nonempty id)); [discriminate|].
    destruct itemError; [discriminate|].
    destruct (single _) as [itemData|] eqn:H; [|discriminate].
    destruct productError; [discriminate|].
    intros E. injection E as <-. now apply single_Some.
Qed.

(** The read of the product fails on a page opened on item-1: no entry
    is held and the adjustment to 7 units is not made. *)
Lemma manual_adjustment_needs_both_reads_witness :
  let st :=
    AdjustInventoryPage.fetchInventoryItem "item-1" None (Some "timeout"%string)
      stock_of_B1 in
  AdjustInventoryPage.inventoryItem st = None
  /\ AdjustInventoryPage.submit st "2024-02-01T00:00:00.000Z" None None adjust_to_7
       stock_of_B1
     = (stock_of_B1, Ignored).
Proof.
  apply (proj1 (@manual_adjustment_needs_both_reads "item-1" "2024-02-01T00:00:00.000Z"
                  None (Some "timeout"%string) None None adjust_to_7
                  stock_of_B1 stock_of_B1)).
  right; left; discriminate.
Defined.

